(** * kernel/arch/cpu.c: processor identification and feature probing

    A shallow embedding of [cpu.c].  The C functions become computations in a
    small state-and-output monad: the state is the file's five [static bool]
    flags, the output is the sequence of hardware accesses ([cpuid], [rdmsr],
    [wrmsr]) and log lines the function performs, in program order.  The
    processor is a parameter: what [cpuid] and [rdmsr] answer for a selector
    or a register number.

    [sse_init] (lines 21-32) is called by no function of the file (its only
    call, in [cpu_init], is commented out) and is left out. *)

From Stdlib Require Import ZArith List Bool Lia.
Import ListNotations.

Local Open Scope Z_scope.

(** ** Machine integers *)

(** [uint32_t] and [uint64_t] values are integers reduced modulo the width. *)
Definition wrap32 (x : Z) : Z := x mod 2 ^ 32.
Definition wrap64 (x : Z) : Z := x mod 2 ^ 64.

(** C truth of an integer expression used as a condition. *)
Definition nz (x : Z) : bool := negb (x =? 0).

(** ** The processor *)

(** The four registers [cpuid] writes, named as the C variables are. *)
Record Regs : Type := mkRegs { eax : Z; ebx : Z; ecx : Z; edx : Z }.

(** A processor model: the answer of [cpuid] for a leaf and of [rdmsr] for a
    register number (low half, high half). *)
Record Processor : Type := mkProcessor {
  hw_cpuid : Z -> Regs;
  hw_rdmsr : Z -> Z * Z
}.

(** ** Buffers *)

(** A byte of a [char] array with automatic storage: [None] until the function
    writes it (its value is indeterminate), [Some b] afterwards. *)
Definition cell : Type := option Z.

Definition uninit (n : nat) : list cell := repeat None n.

(** [buf[i] = v]; every index the source uses is inside its array. *)
Fixpoint store (buf : list cell) (i : nat) (v : Z) : list cell :=
  match buf, i with
  | [], _ => []
  | _ :: tl, O => Some v :: tl
  | c :: tl, S j => c :: store tl j v
  end.

(** Byte [i] of a 32-bit word. *)
Definition byte_of (w : Z) (i : Z) : Z := Z.land (Z.shiftr w (8 * i)) 255.

(** The four bytes of a [uint32_t] in memory (the machine is little-endian). *)
Definition word_bytes (w : Z) : list Z :=
  [byte_of w 0; byte_of w 1; byte_of w 2; byte_of w 3].

(** The bytes of a [uint32_t] array. *)
Definition words_bytes (ws : list Z) : list Z := flat_map word_bytes ws.

(** Modelled from the spec: [tool_memcpy] is declared in [tool.h], which is not
    part of the sources; the spec calls it the raw memory-copy primitive that
    copies a fixed byte count between two buffers.  The first [n] bytes of
    [src] replace the first [n] cells of [dst]. *)
Definition tool_memcpy (dst : list cell) (src : list Z) (n : nat) : list cell :=
  map Some (firstn n src) ++ skipn n dst.

(** What a [%s] conversion reads from a buffer: the bytes up to the first zero
    byte.  [None] when the read reaches a cell that was never written or runs
    off the end of the array before finding a zero. *)
Fixpoint c_string (buf : list cell) : option (list Z) :=
  match buf with
  | [] => None
  | None :: _ => None
  | Some b :: tl =>
      if b =? 0 then Some []
      else match c_string tl with
           | Some s => Some (b :: s)
           | None => None
           end
  end.

(** ** Log lines and events *)

(** One constructor for each message of the file, with its arguments. *)
Inductive LogMsg : Type :=
  | LogFpu | LogAcpiMsrs | LogTemperature (t : Z) | LogMmx | LogSse2
  | LogThermalAuto | LogAvx | LogXsave | LogRdrnd
  | LogMaxCpuid (max : Z)
  | LogMsr | LogPae | LogMce | LogApic | LogSyscallAmd5 | LogSyscall
  | LogAmd64 | LogSse4a | LogMisalignedSse
  | LogMcaOverflow | LogSwErrorRecovery | LogTempSensor | LogThermalMonitor
  | LogHtc | LogStc | Log100MHz
  | LogC0000000 (max : Z)
  | LogManufacturer (s : list cell)
  | LogBrand (s : list cell)
  | LogAmd (s : list cell)
  | LogCpuModel (m : Z)
  | LogCpuFamily (f : Z)
  | LogL2 (lsize assoc cache : Z).

(** What the module does to the outside, in program order. *)
Inductive Event : Type :=
  | EvCpuid (leaf : Z) (r : Regs)
  | EvRdmsr (msr lo hi : Z)
  | EvWrmsr (msr lo hi : Z)
  | EvLog (m : LogMsg)
  | EvFbPrintf (m : LogMsg).

(** ** The file's static flags *)

Record Statics : Type := mkStatics {
  acpi_msrs_support : bool;
  mmx_support : bool;
  sse2_support : bool;
  avx_support : bool;
  rdrnd_support : bool
}.

(** The initialisers of lines 15-19. *)
Definition statics_init : Statics := mkStatics false false false false false.

(** ** The monad *)

Record Run (A : Type) : Type := mkRun { val : A; st : Statics; out : list Event }.
Arguments mkRun {A} _ _ _.
Arguments val {A} _.
Arguments st {A} _.
Arguments out {A} _.

Definition M (A : Type) : Type := Statics -> Run A.

Definition ret {A : Type} (a : A) : M A := fun s => mkRun a s [].

Definition bind {A B : Type} (c : M A) (k : A -> M B) : M B :=
  fun s =>
    let r := c s in
    let r' := k (val r) (st r) in
    mkRun (val r') (st r') (out r ++ out r').

Definition emit (e : Event) : M unit := fun s => mkRun tt s [e].

Definition modify (f : Statics -> Statics) : M unit := fun s => mkRun tt (f s) [].

(** [if (b) { c }] *)
Definition when (b : bool) (c : M unit) : M unit := if b then c else ret tt.

Declare Scope cpu_scope.
Delimit Scope cpu_scope with cpu.
Notation "x <- c1 ;; c2" := (bind c1 (fun x => c2))
  (at level 61, c1 at next level, right associativity) : cpu_scope.
Notation "c1 ;; c2" := (bind c1 (fun _ => c2))
  (at level 61, right associativity) : cpu_scope.

(** Modelled from the spec: [LOG] is a macro of [tool.h], which is not part of
    the sources; the spec calls it the formatted-logging sink.  A call appends
    its message to the output. *)
Definition LOG (m : LogMsg) : M unit := emit (EvLog m).

(** Modelled from the spec: [fb_printf] is declared in [fb.h], which is not
    part of the sources; it writes formatted text to the frame buffer. *)
Definition fb_printf (m : LogMsg) : M unit := emit (EvFbPrintf m).

Definition set_acpi_msrs_support (b : bool) : M unit :=
  modify (fun s => mkStatics b (mmx_support s) (sse2_support s)
                             (avx_support s) (rdrnd_support s)).
Definition set_mmx_support (b : bool) : M unit :=
  modify (fun s => mkStatics (acpi_msrs_support s) b (sse2_support s)
                             (avx_support s) (rdrnd_support s)).
Definition set_sse2_support (b : bool) : M unit :=
  modify (fun s => mkStatics (acpi_msrs_support s) (mmx_support s) b
                             (avx_support s) (rdrnd_support s)).
Definition set_avx_support (b : bool) : M unit :=
  modify (fun s => mkStatics (acpi_msrs_support s) (mmx_support s)
                             (sse2_support s) b (rdrnd_support s)).
Definition set_rdrnd_support (b : bool) : M unit :=
  modify (fun s => mkStatics (acpi_msrs_support s) (mmx_support s)
                             (sse2_support s) (avx_support s) b).

(** ** The functions of cpu.c *)

Section Program.

Variable cpu : Processor.

Local Open Scope cpu_scope.

(** What [cpuid(leaf, &eax, &ebx, &ecx, &edx)] leaves in its four [uint32_t]
    outputs. *)
Definition cpuid_regs (leaf : Z) : Regs :=
  let r := hw_cpuid cpu leaf in
  mkRegs (wrap32 (eax r)) (wrap32 (ebx r)) (wrap32 (ecx r)) (wrap32 (edx r)).

(** [cpuid], lines 34-39. *)
Definition cpuid (leaf : Z) : M Regs :=
  let r := cpuid_regs leaf in
  emit (EvCpuid leaf r) ;; ret r.

(** [msr_get], lines 41-43: the pair is ([*lo], [*hi]). *)
Definition msr_get (msr : Z) : M (Z * Z) :=
  let lo := wrap32 (fst (hw_rdmsr cpu msr)) in
  let hi := wrap32 (snd (hw_rdmsr cpu msr)) in
  emit (EvRdmsr msr lo hi) ;; ret (lo, hi).

(** [msr_set], lines 45-47. *)
Definition msr_set (msr lo hi : Z) : M unit :=
  emit (EvWrmsr msr (wrap32 lo) (wrap32 hi)).

(** The arithmetic of [get_cpu_temperature], lines 55-58, on the two halves. *)
Definition temperature_of (lo hi : Z) : Z :=
  let temp := wrap64 (Z.lor (wrap64 (Z.shiftl hi 32)) lo) in
  let temperature := Z.shiftr temp 16 / 256 in
  temperature.

(** [get_cpu_temperature], lines 49-61. *)
Definition get_cpu_temperature : M Z :=
  lohi <- msr_get 0x19C ;;
  ret (temperature_of (fst lohi) (snd lohi)).

(** The three fields [l2_cache] takes from [ecx], lines 68-70. *)
Definition l2_lsize (ecx : Z) : Z := Z.land ecx 0xFF.
Definition l2_assoc (ecx : Z) : Z := Z.land (Z.shiftr ecx 12) 0x07.
Definition l2_cache_size (ecx : Z) : Z := Z.land (Z.shiftr ecx 16) 0xFFFF.

(** [l2_cache], lines 63-74. *)
Definition l2_cache : M unit :=
  r <- cpuid 0x80000006 ;;
  let lsize := l2_lsize (ecx r) in
  let assoc := l2_assoc (ecx r) in
  let cache := l2_cache_size (ecx r) in
  LOG (LogL2 lsize assoc cache).

(** The locals of [do_amd] when it returns. *)
Record AmdLocals : Type := mkAmdLocals {
  eggs : list Z;
  eggs_string : list cell;
  cpu_model : Z;
  cpu_family : Z
}.

(** [do_amd], lines 76-93.  The C function returns nothing; the model returns
    the final values of its locals so that they can be inspected. *)
Definition do_amd : M AmdLocals :=
  let eggs_string := uninit 13 in
  e <- cpuid 0x8FFFFFFF ;;
  let eggs := [eax e; ebx e; ecx e; edx e] in
  let eggs_string := tool_memcpy eggs_string (words_bytes eggs) 12 in
  r <- cpuid 1 ;;
  let cpu_model := Z.land (Z.shiftr (eax r) 4) 0x0F in
  let cpu_family := Z.land (Z.shiftr (eax r) 8) 0x0F in
  LOG (LogAmd eggs_string) ;;
  LOG (LogCpuModel cpu_model) ;;
  LOG (LogCpuFamily cpu_family) ;;
  ret (mkAmdLocals eggs eggs_string cpu_model cpu_family).

(** The locals of [brandname] when it returns; [amd] holds the locals of the
    call of [do_amd], if there was one. *)
Record BrandLocals : Type := mkBrandLocals {
  manufacturer : list Z;
  manufacturer_string : list cell;
  brand_string : list cell;
  amd : option AmdLocals
}.

(** [brandname], lines 95-121.  [cpuid(0, &manufacturer[3], &manufacturer[0],
    &manufacturer[2], &manufacturer[1])] stores eax in element 3, ebx in
    element 0, ecx in element 2 and edx in element 1. *)
Definition brandname : M BrandLocals :=
  let brand_string := uninit 49 in
  let manufacturer_string := uninit 13 in
  m <- cpuid 0 ;;
  let manufacturer := [ebx m; edx m; ecx m; eax m] in
  let manufacturer_string :=
    tool_memcpy manufacturer_string (words_bytes manufacturer) 12 in
  let brand_string := store brand_string 48 0 in
  let manufacturer_string := store manufacturer_string 12 0 in
  LOG (LogManufacturer manufacturer_string) ;;
  r <- cpuid 0x80000000 ;;
  brand_string <-
    (if 0x80000004 <=? eax r then
       b0 <- cpuid 0x80000002 ;;
       b1 <- cpuid 0x80000003 ;;
       b2 <- cpuid 0x80000004 ;;
       let brand := [eax b0; ebx b0; ecx b0; edx b0;
                     eax b1; ebx b1; ecx b1; edx b1;
                     eax b2; ebx b2; ecx b2; edx b2] in
       let brand_string := tool_memcpy brand_string (words_bytes brand) 48 in
       LOG (LogBrand brand_string) ;;
       ret brand_string
     else ret brand_string) ;;
  amd <-
    (if nth 0 manufacturer 0 =? 0x68747541 then
       a <- do_amd ;; ret (Some a)
     else ret None) ;;
  ret (mkBrandLocals manufacturer manufacturer_string brand_string amd).

(** [cpu_init], lines 123-226. *)
Definition cpu_init : M unit :=
  r <- cpuid 1 ;;
  when (nz (Z.land (Z.shiftr (edx r) 0) 1)) (LOG LogFpu) ;;
  when (nz (Z.land (Z.shiftr (edx r) 22) 1))
    (set_acpi_msrs_support true ;;
     LOG LogAcpiMsrs ;;
     t <- get_cpu_temperature ;;
     LOG (LogTemperature t)) ;;
  when (nz (Z.land (Z.shiftr (edx r) 23) 1))
    (set_mmx_support true ;; LOG LogMmx) ;;
  when (nz (Z.land (Z.shiftr (edx r) 25) 1))
    (set_sse2_support true ;; LOG LogSse2) ;;
  r <- cpuid 1 ;;
  when (nz (Z.land (Z.shiftr (edx r) 29) 1)) (LOG LogThermalAuto) ;;
  when (nz (Z.land (Z.shiftr (ecx r) 28) 1))
    (set_avx_support true ;; LOG LogAvx) ;;
  when (nz (Z.land (Z.shiftr (ecx r) 26) 1)) (LOG LogXsave) ;;
  when (nz (Z.land (Z.shiftr (ecx r) 30) 1))
    (set_rdrnd_support true ;; LOG LogRdrnd) ;;
  r <- cpuid 0x80000000 ;;
  LOG (LogMaxCpuid (eax r)) ;;
  r <- cpuid 0x80000001 ;;
  when (nz (Z.land (Z.shiftr (edx r) 5) 1)) (LOG LogMsr) ;;
  when (nz (Z.land (Z.shiftr (edx r) 6) 1)) (LOG LogPae) ;;
  when (nz (Z.land (Z.shiftr (edx r) 7) 1)) (LOG LogMce) ;;
  when (nz (Z.land (Z.shiftr (edx r) 9) 1)) (LOG LogApic) ;;
  when (nz (Z.land (Z.shiftr (edx r) 10) 1)) (fb_printf LogSyscallAmd5) ;;
  when (nz (Z.land (Z.shiftr (edx r) 11) 1)) (LOG LogSyscall) ;;
  when (nz (Z.land (Z.shiftr (edx r) 29) 1)) (LOG LogAmd64) ;;
  when (nz (Z.land (Z.shiftr (ecx r) 6) 1)) (LOG LogSse4a) ;;
  when (nz (Z.land (Z.shiftr (ecx r) 7) 1)) (LOG LogMisalignedSse) ;;
  r <- cpuid 0x80000007 ;;
  when (nz (Z.land (Z.shiftr (ebx r) 0) 1)) (LOG LogMcaOverflow) ;;
  when (nz (Z.land (Z.shiftr (ebx r) 1) 1)) (LOG LogSwErrorRecovery) ;;
  when (nz (Z.land (Z.shiftr (edx r) 0) 1)) (LOG LogTempSensor) ;;
  when (nz (Z.land (Z.shiftr (edx r) 3) 1)) (LOG LogThermalMonitor) ;;
  when (nz (Z.land (Z.shiftr (edx r) 4) 1)) (LOG LogHtc) ;;
  when (nz (Z.land (Z.shiftr (edx r) 5) 1)) (LOG LogStc) ;;
  when (nz (Z.land (Z.shiftr (edx r) 6) 1)) (LOG Log100MHz) ;;
  r <- cpuid 0xC0000000 ;;
  when (0xC0000000 <? eax r) (LOG (LogC0000000 (eax r))) ;;
  _ <- brandname ;;
  l2_cache.

End Program.

(** ** Observations on outputs *)

Definition is_hw (e : Event) : bool :=
  match e with
  | EvLog _ | EvFbPrintf _ => false
  | _ => true
  end.

(** The hardware accesses of an output, in order, without the log lines. *)
Definition hw_trace (l : list Event) : list Event := filter is_hw l.

(** A run with more output in front of it. *)
Definition prefix_out {A} (l : list Event) (r : Run A) : Run A :=
  mkRun (val r) (st r) (l ++ out r).

(** The state after [if (b) { ... }] whose body changes the state by [f]. *)
Definition upd_if (b : bool) (f : Statics -> Statics) (s : Statics) : Statics :=
  if b then f s else s.

(** The output of [if (b) { LOG(m); }]. *)
Definition log_if (b : bool) (m : LogMsg) : list Event :=
  if b then [EvLog m] else [].

(** The output parameters of [cpuid], counted in the order of its signature
    [(leaf, eax, ebx, ecx, edx)]: eax is the first, edx the fourth. *)
Definition output_register (n : nat) (r : Regs) : Z :=
  match n with
  | 1%nat => eax r
  | 2%nat => ebx r
  | 3%nat => ecx r
  | _ => edx r
  end.

Definition is_msr_access (e : Event) : bool :=
  match e with
  | EvRdmsr _ _ _ | EvWrmsr _ _ _ => true
  | _ => false
  end.

(** A monitor for the gate the code has: it accepts an output when no [wrmsr]
    occurs in it and every [rdmsr] reads register 0x19C after a [cpuid] of
    leaf 1 that answered bit 22 of edx.  [seen] tells whether such an answer
    has occurred so far. *)
Fixpoint msr_gated (seen : bool) (l : list Event) : bool :=
  match l with
  | [] => true
  | EvCpuid leaf r :: tl =>
      msr_gated (seen || ((leaf =? 1) && Z.testbit (edx r) 22)) tl
  | EvRdmsr msr _ _ :: tl => seen && (msr =? 0x19C) && msr_gated seen tl
  | EvWrmsr _ _ _ :: tl => false
  | _ :: tl => msr_gated seen tl
  end.

(** The buffer holding the bytes of three registers, in this order, and a
    zero byte after them. *)
Definition string_of_registers (a b c : Z) : list cell :=
  map Some (word_bytes a ++ word_bytes b ++ word_bytes c) ++ [Some 0].

(** The first four bytes of the vendor string of an AMD processor: [Auth]. *)
Definition amd_signature : list cell :=
  [Some 0x41; Some 0x75; Some 0x74; Some 0x68].

Definition is_amd_query (e : Event) : bool :=
  match e with
  | EvCpuid leaf _ => leaf =? 0x8FFFFFFF
  | _ => false
  end.

(** How many times the selector of [do_amd], 0x8FFFFFFF, is issued. *)
Definition amd_calls (l : list Event) : nat := length (filter is_amd_query l).

Definition is_brand_query (e : Event) : bool :=
  match e with
  | EvCpuid leaf _ => (0x80000002 <=? leaf) && (leaf <=? 0x80000004)
  | _ => false
  end.

Definition is_brand_log (e : Event) : bool :=
  match e with
  | EvLog (LogBrand _) => true
  | _ => false
  end.

(** The flags that are set in [s] are set in [s']. *)
Definition flags_le (s s' : Statics) : Prop :=
  (acpi_msrs_support s = true -> acpi_msrs_support s' = true) /\
  (mmx_support s = true -> mmx_support s' = true) /\
  (sse2_support s = true -> sse2_support s' = true) /\
  (avx_support s = true -> avx_support s' = true) /\
  (rdrnd_support s = true -> rdrnd_support s' = true).

Definition is_cpuid (e : Event) : bool :=
  match e with
  | EvCpuid _ _ => true
  | _ => false
  end.

Definition is_cpuid_of (leaf : Z) (e : Event) : bool :=
  match e with
  | EvCpuid x _ => x =? leaf
  | _ => false
  end.

(** How many times a leaf is queried. *)
Definition cpuid_count (leaf : Z) (l : list Event) : nat :=
  length (filter (is_cpuid_of leaf) l).

Definition is_log_of (p : LogMsg -> bool) (e : Event) : bool :=
  match e with
  | EvLog m => p m
  | _ => false
  end.

(** How many lines satisfying [p] are logged. *)
Definition log_count (p : LogMsg -> bool) (l : list Event) : nat :=
  length (filter (is_log_of p) l).

(** Equality of the six lines that go with the tests of leaf 1 for the FPU
    and for the five flags. *)
Definition same_line (a b : LogMsg) : bool :=
  match a, b with
  | LogFpu, LogFpu | LogAcpiMsrs, LogAcpiMsrs | LogMmx, LogMmx
  | LogSse2, LogSse2 | LogAvx, LogAvx | LogRdrnd, LogRdrnd => true
  | _, _ => false
  end.

Definition is_temperature_line (m : LogMsg) : bool :=
  match m with
  | LogTemperature _ => true
  | _ => false
  end.

(** A number for each kind of line, whatever its arguments. *)
Definition line_tag (m : LogMsg) : nat :=
  match m with
  | LogFpu => 0 | LogAcpiMsrs => 1 | LogTemperature _ => 2 | LogMmx => 3
  | LogSse2 => 4 | LogThermalAuto => 5 | LogAvx => 6 | LogXsave => 7
  | LogRdrnd => 8 | LogMaxCpuid _ => 9 | LogMsr => 10 | LogPae => 11
  | LogMce => 12 | LogApic => 13 | LogSyscallAmd5 => 14 | LogSyscall => 15
  | LogAmd64 => 16 | LogSse4a => 17 | LogMisalignedSse => 18
  | LogMcaOverflow => 19 | LogSwErrorRecovery => 20 | LogTempSensor => 21
  | LogThermalMonitor => 22 | LogHtc => 23 | LogStc => 24 | Log100MHz => 25
  | LogC0000000 _ => 26 | LogManufacturer _ => 27 | LogBrand _ => 28
  | LogAmd _ => 29 | LogCpuModel _ => 30 | LogCpuFamily _ => 31
  | LogL2 _ _ _ => 32
  end%nat.

(** [m] is a line of the same kind as [a]. *)
Definition is_line (a m : LogMsg) : bool := Nat.eqb (line_tag a) (line_tag m).

Definition is_fb_printf (e : Event) : bool :=
  match e with
  | EvFbPrintf _ => true
  | _ => false
  end.

(** ** The arithmetic of [sse_init] *)

(** [sse_init] (lines 21-32) moves CR0 and CR4 through the locals [_cr0] and
    [_cr4] with inline assembly, which is not modelled.  These are the values
    its C statements (lines 24, 25 and 30) compute from the value the local
    holds.  [1 << 2], [1 << 1] and [3 << 9] are [int]s; [~(1 << 2)] is the
    [int] -5, converted to [uint64_t] for the [&=]. *)
Definition sse_cr0 (cr0 : Z) : Z :=
  let cr0 := wrap64 (Z.land cr0 (wrap64 (Z.lnot (Z.shiftl 1 2)))) in
  wrap64 (Z.lor cr0 (wrap64 (Z.shiftl 1 1))).

Definition sse_cr4 (cr4 : Z) : Z :=
  wrap64 (Z.lor cr4 (wrap64 (Z.shiftl 3 9))).

(** ** What the functions compute, in closed form *)

(** The values and outputs of the functions written as plain expressions of
    the processor's answers.  The lemmas [do_amd_run], [brandname_run] and
    [cpu_init_run] below prove that the monadic definitions compute exactly
    these. *)

Section Closed.

Variable cpu : Processor.

(** The two halves [msr_get] stores for a register number. *)
Definition msr_lo (msr : Z) : Z := wrap32 (fst (hw_rdmsr cpu msr)).
Definition msr_hi (msr : Z) : Z := wrap32 (snd (hw_rdmsr cpu msr)).

(** What the body of the [if] of lines 129-133 emits. *)
Definition thermal_block_out : list Event :=
  [EvLog LogAcpiMsrs;
   EvRdmsr 0x19C (msr_lo 0x19C) (msr_hi 0x19C);
   EvLog (LogTemperature (temperature_of (msr_lo 0x19C) (msr_hi 0x19C)))].

(** The tag buffer of [do_amd]: twelve copied bytes and one cell that no
    statement of the function writes. *)
Definition amd_tag : list cell :=
  let e := cpuid_regs cpu 0x8FFFFFFF in
  tool_memcpy (uninit 13) (words_bytes [eax e; ebx e; ecx e; edx e]) 12.

Definition amd_locals : AmdLocals :=
  let e := cpuid_regs cpu 0x8FFFFFFF in
  let r := cpuid_regs cpu 1 in
  mkAmdLocals [eax e; ebx e; ecx e; edx e] amd_tag
    (Z.land (Z.shiftr (eax r) 4) 0x0F) (Z.land (Z.shiftr (eax r) 8) 0x0F).

Definition amd_out : list Event :=
  [EvCpuid 0x8FFFFFFF (cpuid_regs cpu 0x8FFFFFFF);
   EvCpuid 1 (cpuid_regs cpu 1);
   EvLog (LogAmd amd_tag);
   EvLog (LogCpuModel (cpu_model amd_locals));
   EvLog (LogCpuFamily (cpu_family amd_locals))].

(** The conditions of the two [if]s of [brandname]. *)
Definition brand_supported : bool :=
  0x80000004 <=? eax (cpuid_regs cpu 0x80000000).
Definition vendor_is_amd : bool := ebx (cpuid_regs cpu 0) =? 0x68747541.

Definition vendor_words : list Z :=
  let m := cpuid_regs cpu 0 in [ebx m; edx m; ecx m; eax m].

Definition vendor_buf : list cell :=
  store (tool_memcpy (uninit 13) (words_bytes vendor_words) 12) 12 0.

Definition brand_words : list Z :=
  let b0 := cpuid_regs cpu 0x80000002 in
  let b1 := cpuid_regs cpu 0x80000003 in
  let b2 := cpuid_regs cpu 0x80000004 in
  [eax b0; ebx b0; ecx b0; edx b0;
   eax b1; ebx b1; ecx b1; edx b1;
   eax b2; ebx b2; ecx b2; edx b2].

Definition brand_buf : list cell :=
  if brand_supported
  then tool_memcpy (store (uninit 49) 48 0) (words_bytes brand_words) 48
  else store (uninit 49) 48 0.

Definition brand_out : list Event :=
  if brand_supported
  then [EvCpuid 0x80000002 (cpuid_regs cpu 0x80000002);
        EvCpuid 0x80000003 (cpuid_regs cpu 0x80000003);
        EvCpuid 0x80000004 (cpuid_regs cpu 0x80000004);
        EvLog (LogBrand brand_buf)]
  else [].

Definition brandname_locals : BrandLocals :=
  mkBrandLocals vendor_words vendor_buf brand_buf
    (if vendor_is_amd then Some amd_locals else None).

Definition brandname_out : list Event :=
  [EvCpuid 0 (cpuid_regs cpu 0);
   EvLog (LogManufacturer vendor_buf);
   EvCpuid 0x80000000 (cpuid_regs cpu 0x80000000)]
  ++ brand_out ++ (if vendor_is_amd then amd_out else []).

(** The flags after a pass that started with the flags [s]: a flag is only
    ever assigned [true], and only under its bit. *)
Definition probed (s : Statics) : Statics :=
  let r := cpuid_regs cpu 1 in
  mkStatics (acpi_msrs_support s || Z.testbit (edx r) 22)
            (mmx_support s || Z.testbit (edx r) 23)
            (sse2_support s || Z.testbit (edx r) 25)
            (avx_support s || Z.testbit (ecx r) 28)
            (rdrnd_support s || Z.testbit (ecx r) 30).

(** Everything [cpu_init] emits, top to bottom. *)
Definition cpu_init_out : list Event :=
  let r := cpuid_regs cpu 1 in
  let x0 := cpuid_regs cpu 0x80000000 in
  let x1 := cpuid_regs cpu 0x80000001 in
  let x7 := cpuid_regs cpu 0x80000007 in
  let c0 := cpuid_regs cpu 0xC0000000 in
  [EvCpuid 1 r] ++
  log_if (Z.testbit (edx r) 0) LogFpu ++
  (if Z.testbit (edx r) 22 then thermal_block_out else []) ++
  log_if (Z.testbit (edx r) 23) LogMmx ++
  log_if (Z.testbit (edx r) 25) LogSse2 ++
  [EvCpuid 1 r] ++
  log_if (Z.testbit (edx r) 29) LogThermalAuto ++
  log_if (Z.testbit (ecx r) 28) LogAvx ++
  log_if (Z.testbit (ecx r) 26) LogXsave ++
  log_if (Z.testbit (ecx r) 30) LogRdrnd ++
  [EvCpuid 0x80000000 x0] ++
  [EvLog (LogMaxCpuid (eax x0))] ++
  [EvCpuid 0x80000001 x1] ++
  log_if (Z.testbit (edx x1) 5) LogMsr ++
  log_if (Z.testbit (edx x1) 6) LogPae ++
  log_if (Z.testbit (edx x1) 7) LogMce ++
  log_if (Z.testbit (edx x1) 9) LogApic ++
  (if Z.testbit (edx x1) 10 then [EvFbPrintf LogSyscallAmd5] else []) ++
  log_if (Z.testbit (edx x1) 11) LogSyscall ++
  log_if (Z.testbit (edx x1) 29) LogAmd64 ++
  log_if (Z.testbit (ecx x1) 6) LogSse4a ++
  log_if (Z.testbit (ecx x1) 7) LogMisalignedSse ++
  [EvCpuid 0x80000007 x7] ++
  log_if (Z.testbit (ebx x7) 0) LogMcaOverflow ++
  log_if (Z.testbit (ebx x7) 1) LogSwErrorRecovery ++
  log_if (Z.testbit (edx x7) 0) LogTempSensor ++
  log_if (Z.testbit (edx x7) 3) LogThermalMonitor ++
  log_if (Z.testbit (edx x7) 4) LogHtc ++
  log_if (Z.testbit (edx x7) 5) LogStc ++
  log_if (Z.testbit (edx x7) 6) Log100MHz ++
  [EvCpuid 0xC0000000 c0] ++
  log_if (0xC0000000 <? eax c0) (LogC0000000 (eax c0)) ++
  brandname_out ++
  out (l2_cache cpu statics_init).

(** The hardware accesses of [brandname]. *)
Definition brandname_hw : list Event :=
  [EvCpuid 0 (cpuid_regs cpu 0);
   EvCpuid 0x80000000 (cpuid_regs cpu 0x80000000)] ++
  (if brand_supported
   then [EvCpuid 0x80000002 (cpuid_regs cpu 0x80000002);
         EvCpuid 0x80000003 (cpuid_regs cpu 0x80000003);
         EvCpuid 0x80000004 (cpuid_regs cpu 0x80000004)]
   else []) ++
  (if vendor_is_amd
   then [EvCpuid 0x8FFFFFFF (cpuid_regs cpu 0x8FFFFFFF);
         EvCpuid 1 (cpuid_regs cpu 1)]
   else []).

(** The hardware accesses of [cpu_init], in program order. *)
Definition cpu_init_hw : list Event :=
  [EvCpuid 1 (cpuid_regs cpu 1)] ++
  (if Z.testbit (edx (cpuid_regs cpu 1)) 22
   then [EvRdmsr 0x19C (msr_lo 0x19C) (msr_hi 0x19C)] else []) ++
  [EvCpuid 1 (cpuid_regs cpu 1);
   EvCpuid 0x80000000 (cpuid_regs cpu 0x80000000);
   EvCpuid 0x80000001 (cpuid_regs cpu 0x80000001);
   EvCpuid 0x80000007 (cpuid_regs cpu 0x80000007);
   EvCpuid 0xC0000000 (cpuid_regs cpu 0xC0000000)] ++
  brandname_hw ++
  [EvCpuid 0x80000006 (cpuid_regs cpu 0x80000006)].

End Closed.

(** ** Example processors *)

Definition zero_regs : Regs := mkRegs 0 0 0 0.

(** Answers zero to every query. *)
Definition cpu_none : Processor :=
  mkProcessor (fun _ => zero_regs) (fun _ => (0, 0)).

(** Leaf 1 reports bit 0 of edx (x87 FPU) and nothing else. *)
Definition cpu_fpu_only : Processor :=
  mkProcessor (fun leaf => if leaf =? 1 then mkRegs 0 0 0 1 else zero_regs)
              (fun _ => (0, 0)).

(** Leaf 1 reports bit 22 of edx; leaf 0x80000000 reports no extended leaf
    beyond itself and leaf 0x80000001 has the model-specific-register bit
    (edx bit 5) clear; register 0x19C reads lo = 0x25000000, hi = 0. *)
Definition cpu_thermal : Processor :=
  mkProcessor
    (fun leaf =>
       if leaf =? 1 then mkRegs 0 0 0 0x400000
       else if leaf =? 0x80000000 then mkRegs 0x80000000 0 0 0
       else zero_regs)
    (fun msr => if msr =? 0x19C then (0x25000000, 0) else (0, 0)).

(** Leaf 0x80000000 reports itself as the highest extended leaf; a query of
    leaf 0x80000001 is answered all the same (with bits 5 and 29 of edx). *)
Definition cpu_no_ext : Processor :=
  mkProcessor
    (fun leaf =>
       if leaf =? 0x80000000 then mkRegs 0x80000000 0 0 0
       else if leaf =? 0x80000001 then mkRegs 0 0 0 0x20000020
       else zero_regs)
    (fun _ => (0, 0)).

(** An AMD processor: vendor [AuthenticAMD], family 15 model 4, extended
    leaves up to 0x80000018, and the tag [IT'S HAMMER TIME] at 0x8FFFFFFF. *)
Definition cpu_amd : Processor :=
  mkProcessor
    (fun leaf =>
       if leaf =? 0 then mkRegs 1 0x68747541 0x444D4163 0x69746E65
       else if leaf =? 1 then mkRegs 0x00000F4A 0 0 0x07800001
       else if leaf =? 0x80000000 then mkRegs 0x80000018 0 0 0
       else if leaf =? 0x80000002 then
         mkRegs 0x20444D41 0x6C687441 0x74286E6F 0x3620296D
       else if leaf =? 0x80000003 then
         mkRegs 0x72502034 0x7365636F 0x20726F73 0x30303233
       else if leaf =? 0x80000004 then mkRegs 0x0000002B 0 0 0
       else if leaf =? 0x80000006 then mkRegs 0 0 0x02002040 0
       else if leaf =? 0x8FFFFFFF then
         mkRegs 0x53275449 0x4D414820 0x2052454D 0x454D4954
       else zero_regs)
    (fun _ => (0, 0)).

(** [cpu_amd] with other answers outside leaf 0: the same vendor, no brand
    leaves, nothing else reported. *)
Definition cpu_amd_bare : Processor :=
  mkProcessor
    (fun leaf =>
       if leaf =? 0 then mkRegs 5 0x68747541 0x444D4163 0x69746E65
       else zero_regs)
    (fun _ => (0, 0)).

(** ** Reasoning about computations *)

Lemma run_eta {A} (r : Run A) : mkRun (val r) (st r) (out r) = r.
Proof. destruct r; reflexivity. Qed.

Lemma bind_ret {A B} (a : A) (k : A -> M B) s : bind (ret a) k s = k a s.
Proof. unfold bind, ret; simpl. apply run_eta. Qed.

Lemma bind_emit {B} e (k : unit -> M B) s :
  bind (emit e) k s = prefix_out [e] (k tt s).
Proof. reflexivity. Qed.

Lemma bind_when {B} b (c : M unit) (k : unit -> M B) s :
  bind (when b c) k s =
  prefix_out (if b then out (c s) else []) (k tt (if b then st (c s) else s)).
Proof.
  destruct b; simpl.
  - unfold bind, prefix_out. destruct (val (c s)). reflexivity.
  - rewrite bind_ret. unfold prefix_out; simpl. symmetry; apply run_eta.
Qed.

Lemma prefix_out_mkRun {A} l (a : A) s o :
  prefix_out l (mkRun a s o) = mkRun a s (l ++ o).
Proof. reflexivity. Qed.

Lemma bind_run {A B} (c : M A) (k : A -> M B) s a s1 o1 b s2 o2 :
  c s = mkRun a s1 o1 -> k a s1 = mkRun b s2 o2 ->
  bind c k s = mkRun b s2 (o1 ++ o2).
Proof. intros Hc Hk. unfold bind. rewrite Hc. cbn [val st out]. now rewrite Hk. Qed.

Lemma val_prefix_out {A} l (r : Run A) : val (prefix_out l r) = val r.
Proof. reflexivity. Qed.

Lemma st_prefix_out {A} l (r : Run A) : st (prefix_out l r) = st r.
Proof. reflexivity. Qed.

Lemma out_prefix_out {A} l (r : Run A) : out (prefix_out l r) = l ++ out r.
Proof. reflexivity. Qed.

Lemma hw_trace_app l1 l2 : hw_trace (l1 ++ l2) = hw_trace l1 ++ hw_trace l2.
Proof. apply filter_app. Qed.

Lemma bind_when_emit {B} b e (k : unit -> M B) s :
  bind (when b (emit e)) k s = prefix_out (if b then [e] else []) (k tt s).
Proof. rewrite bind_when. destruct b; reflexivity. Qed.

Lemma bind_when_modify_emit {B} b f e (k : unit -> M B) s :
  bind (when b (bind (modify f) (fun _ => emit e))) k s =
  prefix_out (if b then [e] else []) (k tt (upd_if b f s)).
Proof. rewrite bind_when. destruct b; reflexivity. Qed.

Section Laws.

Variable cpu : Processor.

Lemma bind_cpuid {B} leaf (k : Regs -> M B) s :
  bind (cpuid cpu leaf) k s =
  prefix_out [EvCpuid leaf (cpuid_regs cpu leaf)] (k (cpuid_regs cpu leaf) s).
Proof. reflexivity. Qed.

Lemma bind_when_thermal {B} b f (k : unit -> M B) s :
  bind (when b (bind (modify f) (fun _ =>
                bind (emit (EvLog LogAcpiMsrs)) (fun _ =>
                bind (get_cpu_temperature cpu) (fun t =>
                emit (EvLog (LogTemperature t))))))) k s =
  prefix_out (if b then thermal_block_out cpu else []) (k tt (upd_if b f s)).
Proof. rewrite bind_when. destruct b; reflexivity. Qed.

End Laws.

Ltac step :=
  first [ rewrite bind_cpuid
        | rewrite bind_when_emit
        | rewrite bind_when_modify_emit
        | rewrite bind_when_thermal
        | rewrite bind_emit ];
  cbv beta.

Ltac unfold_prims :=
  unfold LOG, fb_printf, set_acpi_msrs_support, set_mmx_support,
    set_sse2_support, set_avx_support, set_rdrnd_support.

(** ** Bit tests *)

Lemma nz_b2z b : nz (Z.b2z b) = b.
Proof. destruct b; reflexivity. Qed.

(** [(x >> n) & 1] as a condition is bit [n] of [x]. *)
Lemma nz_bit x n : 0 <= n -> nz (Z.land (Z.shiftr x n) 1) = Z.testbit x n.
Proof.
  intros Hn.
  change 1 with (Z.ones 1) at 1.
  rewrite Z.land_ones by lia.
  rewrite Z.shiftr_div_pow2 by lia.
  change (2 ^ 1) with 2.
  rewrite <- Z.testbit_spec' by lia.
  apply nz_b2z.
Qed.

Lemma wrap32_range x : 0 <= wrap32 x < 2 ^ 32.
Proof. unfold wrap32. apply Z.mod_pos_bound. lia. Qed.

Lemma wrap32_bits_high x n : 32 <= n -> Z.testbit (wrap32 x) n = false.
Proof. intros. unfold wrap32. apply Z.mod_pow2_bits_high. lia. Qed.

(** A mask of low bits is a remainder, a right shift a quotient. *)
Lemma land_shiftr_field x sh w :
  0 <= sh -> 0 <= w ->
  Z.land (Z.shiftr x sh) (Z.ones w) = (x / 2 ^ sh) mod 2 ^ w.
Proof.
  intros. rewrite Z.land_ones by assumption.
  now rewrite Z.shiftr_div_pow2.
Qed.

(** ** What each function does *)

Section Runs.

Variable cpu : Processor.

(** [get_cpu_temperature] reads register 0x19C once. *)
Lemma get_cpu_temperature_run s :
  get_cpu_temperature cpu s =
  mkRun (temperature_of (msr_lo cpu 0x19C) (msr_hi cpu 0x19C)) s
        [EvRdmsr 0x19C (msr_lo cpu 0x19C) (msr_hi cpu 0x19C)].
Proof. reflexivity. Qed.

Lemma l2_cache_run s :
  l2_cache cpu s =
  let r := cpuid_regs cpu 0x80000006 in
  mkRun tt s
    [EvCpuid 0x80000006 r;
     EvLog (LogL2 (l2_lsize (ecx r)) (l2_assoc (ecx r)) (l2_cache_size (ecx r)))].
Proof. reflexivity. Qed.

Lemma do_amd_run s : do_amd cpu s = mkRun (amd_locals cpu) s (amd_out cpu).
Proof. reflexivity. Qed.

Lemma brandname_run s :
  brandname cpu s = mkRun (brandname_locals cpu) s (brandname_out cpu).
Proof.
  unfold brandname, brandname_locals, brandname_out, brand_out, brand_buf.
  unfold_prims.
  rewrite bind_cpuid; cbv beta zeta.
  rewrite bind_emit, bind_cpuid; cbv beta.
  cbn [nth].
  fold (brand_supported cpu) (vendor_is_amd cpu).
  destruct (brand_supported cpu), (vendor_is_amd cpu); reflexivity.
Qed.

End Runs.

(** ** The run of [cpu_init] *)

Section CpuInitRun.

Variable cpu : Processor.

Lemma upd_if_chain s b22 b23 b25 b28 b30 :
  upd_if b30 (fun s0 => mkStatics (acpi_msrs_support s0) (mmx_support s0)
                          (sse2_support s0) (avx_support s0) true)
   (upd_if b28 (fun s0 => mkStatics (acpi_msrs_support s0) (mmx_support s0)
                            (sse2_support s0) true (rdrnd_support s0))
     (upd_if b25 (fun s0 => mkStatics (acpi_msrs_support s0) (mmx_support s0)
                              true (avx_support s0) (rdrnd_support s0))
       (upd_if b23 (fun s0 => mkStatics (acpi_msrs_support s0) true
                                (sse2_support s0) (avx_support s0)
                                (rdrnd_support s0))
         (upd_if b22 (fun s0 => mkStatics true (mmx_support s0)
                                  (sse2_support s0) (avx_support s0)
                                  (rdrnd_support s0)) s)))) =
  mkStatics (acpi_msrs_support s || b22) (mmx_support s || b23)
            (sse2_support s || b25) (avx_support s || b28)
            (rdrnd_support s || b30).
Proof.
  destruct s as [a m x v d].
  destruct b22, b23, b25, b28, b30, a, m, x, v, d; reflexivity.
Qed.

(** The symbolic execution of [cpu_init]: its final flags and its output, for
    every processor and every initial value of the flags. *)
Lemma cpu_init_run s :
  cpu_init cpu s = mkRun tt (probed cpu s) (cpu_init_out cpu).
Proof.
  unfold cpu_init. unfold_prims.
  repeat step.
  rewrite (bind_run _ _ _ _ _ _ _ _ _ (brandname_run cpu _) (l2_cache_run cpu _)).
  cbv zeta.
  rewrite !prefix_out_mkRun.
  rewrite !nz_bit by lia.
  rewrite upd_if_chain.
  reflexivity.
Qed.

Lemma cpu_init_st s : st (cpu_init cpu s) = probed cpu s.
Proof. now rewrite cpu_init_run. Qed.

Lemma cpu_init_out_eq s : out (cpu_init cpu s) = cpu_init_out cpu.
Proof. now rewrite cpu_init_run. Qed.

Lemma hw_trace_log_if b m : hw_trace (log_if b m) = [].
Proof. destruct b; reflexivity. Qed.

Lemma hw_trace_printf_if (b : bool) m :
  hw_trace (if b then [EvFbPrintf m] else []) = [].
Proof. destruct b; reflexivity. Qed.

Lemma brandname_hw_trace : hw_trace (brandname_out cpu) = brandname_hw cpu.
Proof.
  unfold brandname_out, brandname_hw, brand_out.
  destruct (brand_supported cpu), (vendor_is_amd cpu); reflexivity.
Qed.

Lemma cpu_init_hw_trace s :
  hw_trace (out (cpu_init cpu s)) = cpu_init_hw cpu.
Proof.
  rewrite cpu_init_out_eq. unfold cpu_init_out, cpu_init_hw. cbv zeta.
  rewrite !hw_trace_app, !hw_trace_log_if, hw_trace_printf_if.
  rewrite brandname_hw_trace.
  destruct (Z.testbit (edx (cpuid_regs cpu 1)) 22); reflexivity.
Qed.

End CpuInitRun.

(** ** The feature flags *)

(** C1 (as the code has it).  When leaf 1 answers edx with only bit 0 set, and
    bits 28 and 30 of ecx clear, a pass that starts from the initial flags
    leaves all five flags of the file false, and bit 0 shows only as the log
    line for the FPU: the file keeps no flag for it. *)
Theorem C1_fpu_bit_only_logged (cpu : Processor) :
  edx (cpuid_regs cpu 1) = 1 ->
  Z.testbit (ecx (cpuid_regs cpu 1)) 28 = false ->
  Z.testbit (ecx (cpuid_regs cpu 1)) 30 = false ->
  st (cpu_init cpu statics_init) = mkStatics false false false false false /\
  In (EvLog LogFpu) (out (cpu_init cpu statics_init)).
Proof.
  intros Hd H28 H30. split.
  - rewrite cpu_init_st. unfold probed. cbv zeta.
    rewrite Hd, H28, H30. reflexivity.
  - rewrite cpu_init_out_eq. unfold cpu_init_out. cbv zeta.
    rewrite Hd. apply in_or_app. right. apply in_or_app. left.
    left. reflexivity.
Qed.

Lemma C1_fpu_bit_only_logged_witness :
  st (cpu_init cpu_fpu_only statics_init) =
    mkStatics false false false false false /\
  In (EvLog LogFpu) (out (cpu_init cpu_fpu_only statics_init)).
Proof.
  apply (C1_fpu_bit_only_logged cpu_fpu_only); reflexivity.
Defined.

(** C1 as stated fails: after the pass on the processor that reports only
    bit 0, every flag of the state is false, and the state is the same as
    after the pass on the processor that reports nothing; so no flag read off
    the state can be true in the first case and false in the second. *)
Lemma C1_counterexample :
  st (cpu_init cpu_fpu_only statics_init) =
    mkStatics false false false false false /\
  ~ (exists fpu : Statics -> bool,
        fpu (st (cpu_init cpu_fpu_only statics_init)) = true /\
        fpu (st (cpu_init cpu_none statics_init)) = false).
Proof.
  split.
  - vm_compute. reflexivity.
  - intros [fpu [H1 H2]].
    assert (E : st (cpu_init cpu_fpu_only statics_init) =
                st (cpu_init cpu_none statics_init))
      by (vm_compute; reflexivity).
    rewrite E in H1. congruence.
Qed.

(** C9.  A second pass on the same processor, started from the flags the
    first pass left, ends with the same flags; this holds whatever the flags
    were before the first pass, in particular for the initial ones. *)
Theorem C9_second_pass_same_flags (cpu : Processor) (s : Statics) :
  st (cpu_init cpu (st (cpu_init cpu s))) = st (cpu_init cpu s) /\
  st (cpu_init cpu (st (cpu_init cpu statics_init))) =
    st (cpu_init cpu statics_init).
Proof.
  assert (Hidem : forall s0, probed cpu (probed cpu s0) = probed cpu s0).
  { intros s0. unfold probed. cbv zeta. cbn [acpi_msrs_support mmx_support
      sse2_support avx_support rdrnd_support].
    rewrite <- !orb_assoc, !orb_diag. reflexivity. }
  rewrite !cpu_init_st. split; apply Hidem.
Qed.

(** ** The temperature *)

Lemma temperature_fits lo hi :
  wrap64 (Z.lor (wrap64 (Z.shiftl (wrap32 hi) 32)) (wrap32 lo)) =
  Z.lor (Z.shiftl (wrap32 hi) 32) (wrap32 lo).
Proof.
  assert (Hsh : wrap64 (Z.shiftl (wrap32 hi) 32) = Z.shiftl (wrap32 hi) 32).
  { unfold wrap64. apply Z.bits_inj'. intros n Hn.
    destruct (Z.ltb_spec n 64).
    - now rewrite Z.mod_pow2_bits_low.
    - rewrite Z.mod_pow2_bits_high by lia.
      rewrite Z.shiftl_spec by lia.
      symmetry. apply wrap32_bits_high. lia. }
  rewrite Hsh. unfold wrap64. apply Z.bits_inj'. intros n Hn.
  destruct (Z.ltb_spec n 64).
  - now rewrite Z.mod_pow2_bits_low.
  - rewrite Z.mod_pow2_bits_high by lia.
    rewrite Z.lor_spec, Z.shiftl_spec by lia.
    rewrite !wrap32_bits_high by lia. reflexivity.
Qed.

Lemma halves_disjoint lo hi :
  Z.land (Z.shiftl (wrap32 hi) 32) (wrap32 lo) = 0.
Proof.
  apply Z.bits_inj'. intros n Hn.
  rewrite Z.land_spec, Z.bits_0.
  destruct (Z.ltb_spec n 32).
  - rewrite Z.shiftl_spec, Z.testbit_neg_r by lia. reflexivity.
  - rewrite (wrap32_bits_high lo) by lia. apply andb_false_r.
Qed.

(** C4.  [get_cpu_temperature] reads register 0x19C once and returns
    [((hi << 32) | lo) >> 16] divided by 256, the 64-bit value holding both
    halves without loss (it is [hi * 2^32 + lo]); for hi = 0 and
    lo = 0x25000000 the result is 37. *)
Theorem C4_temperature_decode (cpu : Processor) (s : Statics) :
  let lo := msr_lo cpu 0x19C in
  let hi := msr_hi cpu 0x19C in
  out (get_cpu_temperature cpu s) = [EvRdmsr 0x19C lo hi] /\
  val (get_cpu_temperature cpu s) =
    Z.shiftr (Z.lor (Z.shiftl hi 32) lo) 16 / 256 /\
  Z.lor (Z.shiftl hi 32) lo = hi * 2 ^ 32 + lo /\
  temperature_of 0x25000000 0 = 37 /\
  (forall f, val (get_cpu_temperature
                    (mkProcessor f (fun _ => (0x25000000, 0))) s) = 37).
Proof.
  cbv zeta. rewrite get_cpu_temperature_run. cbn [val out].
  repeat split.
  - unfold temperature_of, msr_lo, msr_hi. cbv zeta.
    now rewrite temperature_fits.
  - unfold msr_lo, msr_hi.
    rewrite <- Z.lxor_lor, <- Z.add_nocarry_lxor by apply halves_disjoint.
    now rewrite Z.shiftl_mul_pow2 by lia.
Qed.

(** ** The cache geometry *)

(** C5.  [l2_cache] queries leaf 0x80000006 and logs three fields of its
    third output register (ecx): bits 0-7 as the line size, bits 12-14 as the
    associativity code and bits 16-31 as the cache size; for the register
    value 0x02002040 they are 64, 2 and 512. *)
Theorem C5_l2_cache_decode (cpu : Processor) (s : Statics) :
  let c := output_register 3 (cpuid_regs cpu 0x80000006) in
  out (l2_cache cpu s) =
    [EvCpuid 0x80000006 (cpuid_regs cpu 0x80000006);
     EvLog (LogL2 (c mod 2 ^ 8) ((c / 2 ^ 12) mod 2 ^ 3)
                  ((c / 2 ^ 16) mod 2 ^ 16))] /\
  (forall e, l2_lsize e = e mod 2 ^ 8 /\
             l2_assoc e = (e / 2 ^ 12) mod 2 ^ 3 /\
             l2_cache_size e = (e / 2 ^ 16) mod 2 ^ 16) /\
  l2_lsize 0x02002040 = 64 /\
  l2_assoc 0x02002040 = 2 /\
  l2_cache_size 0x02002040 = 512.
Proof.
  assert (Hf : forall e, l2_lsize e = e mod 2 ^ 8 /\
                         l2_assoc e = (e / 2 ^ 12) mod 2 ^ 3 /\
                         l2_cache_size e = (e / 2 ^ 16) mod 2 ^ 16).
  { intros e. unfold l2_lsize, l2_assoc, l2_cache_size. repeat split.
    - change 0xFF with (Z.ones 8). now rewrite Z.land_ones by lia.
    - change 0x07 with (Z.ones 3). apply land_shiftr_field; lia.
    - change 0xFFFF with (Z.ones 16). apply land_shiftr_field; lia. }
  cbv zeta. rewrite l2_cache_run. cbv zeta. cbn [out output_register].
  destruct (Hf (ecx (cpuid_regs cpu 0x80000006))) as [H1 [H2 H3]].
  rewrite H1, H2, H3.
  repeat split; apply Hf.
Qed.

(** ** Model-specific registers *)

Lemma msr_gated_hw_trace l : forall seen,
  msr_gated seen (hw_trace l) = msr_gated seen l.
Proof.
  induction l as [|e tl IH]; intros seen; [reflexivity|].
  destruct e; cbn [hw_trace filter is_hw msr_gated]; fold (hw_trace tl);
    rewrite ?IH; reflexivity.
Qed.

Lemma msr_gated_sound pre : forall seen ev post,
  msr_gated seen (pre ++ ev :: post) = true ->
  is_msr_access ev = true ->
  (exists lo hi, ev = EvRdmsr 0x19C lo hi) /\
  (seen = true \/
   exists r, In (EvCpuid 1 r) pre /\ Z.testbit (edx r) 22 = true).
Proof.
  induction pre as [|e tl IH]; intros seen ev post H Hev.
  - destruct ev; try discriminate; cbn in H.
    apply andb_true_iff in H. destruct H as [H _].
    apply andb_true_iff in H. destruct H as [Hs Hm].
    apply Z.eqb_eq in Hm. subst. split; eauto.
  - cbn [app msr_gated] in H.
    destruct e as [leaf r0 | msr lo hi | msr lo hi | m | m].
    + destruct (IH _ _ _ H Hev) as [He [Hs | [r [Hin Hb]]]]; split; trivial.
      * apply orb_true_iff in Hs. destruct Hs as [Hs | Hs]; [now left|].
        apply andb_true_iff in Hs. destruct Hs as [Hl Hb].
        apply Z.eqb_eq in Hl. subst. right. exists r0. split; [now left|trivial].
      * right. exists r. split; [now right|trivial].
    + apply andb_true_iff in H. destruct H as [H Htl].
      apply andb_true_iff in H. destruct H as [Hs _].
      destruct (IH _ _ _ Htl Hev) as [He _]. split; trivial. now left.
    + discriminate.
    + destruct (IH _ _ _ H Hev) as [He [Hs | [r [Hin Hb]]]]; split; trivial;
        [now left | right; exists r; split; [now right|trivial]].
    + destruct (IH _ _ _ H Hev) as [He [Hs | [r [Hin Hb]]]]; split; trivial;
        [now left | right; exists r; split; [now right|trivial]].
Qed.

Lemma cpu_init_msr_gated cpu s : msr_gated false (out (cpu_init cpu s)) = true.
Proof.
  rewrite <- msr_gated_hw_trace, cpu_init_hw_trace.
  unfold cpu_init_hw, brandname_hw.
  destruct (Z.testbit (edx (cpuid_regs cpu 1)) 22) eqn:E;
    destruct (brand_supported cpu), (vendor_is_amd cpu);
    cbn [app msr_gated]; rewrite ?E; reflexivity.
Qed.

(** C3 (as the code has it).  In every run of [cpu_init], an access to a
    model-specific register is the read of register 0x19C, and it comes after
    a query of the baseline leaf 1 that answered bit 22 of edx; no register is
    ever written. *)
Theorem C3_msr_read_gated_by_leaf1_bit22
    (cpu : Processor) (s : Statics) (pre : list Event) (ev : Event)
    (post : list Event) :
  out (cpu_init cpu s) = pre ++ ev :: post ->
  is_msr_access ev = true ->
  (exists lo hi, ev = EvRdmsr 0x19C lo hi) /\
  (exists r, In (EvCpuid 1 r) pre /\ Z.testbit (edx r) 22 = true).
Proof.
  intros Hout Hev.
  pose proof (cpu_init_msr_gated cpu s) as Hg. rewrite Hout in Hg.
  destruct (msr_gated_sound _ _ _ _ Hg Hev) as [He [Hs | Hr]].
  - split; trivial. discriminate.
  - split; trivial.
Qed.

Lemma C3_msr_read_gated_by_leaf1_bit22_witness :
  (exists lo hi, EvRdmsr 0x19C 0x25000000 0 = EvRdmsr 0x19C lo hi) /\
  (exists r, In (EvCpuid 1 r)
               [EvCpuid 1 (mkRegs 0 0 0 0x400000); EvLog LogAcpiMsrs] /\
             Z.testbit (edx r) 22 = true).
Proof.
  apply (C3_msr_read_gated_by_leaf1_bit22 cpu_thermal statics_init
           [EvCpuid 1 (mkRegs 0 0 0 0x400000); EvLog LogAcpiMsrs]
           (EvRdmsr 0x19C 0x25000000 0)
           (skipn 3 (out (cpu_init cpu_thermal statics_init)))).
  - vm_compute. reflexivity.
  - reflexivity.
Defined.

(** C3 as stated fails: on a processor whose leaf 1 answers bit 22 of edx and
    whose extended leaf 0x80000001 answers the model-specific-register bit
    (edx bit 5) clear, register 0x19C is read, and no query of leaf 0x80000001
    comes before the read. *)
Lemma C3_counterexample :
  Z.testbit (edx (cpuid_regs cpu_thermal 0x80000001)) 5 = false /\
  exists pre lo hi post,
    out (cpu_init cpu_thermal statics_init) =
      pre ++ EvRdmsr 0x19C lo hi :: post /\
    forall r, ~ In (EvCpuid 0x80000001 r) pre.
Proof.
  split; [reflexivity|].
  exists [EvCpuid 1 (mkRegs 0 0 0 0x400000); EvLog LogAcpiMsrs].
  exists 0x25000000, 0.
  exists (skipn 3 (out (cpu_init cpu_thermal statics_init))).
  split.
  - vm_compute. reflexivity.
  - intros r [H | [H | []]]; discriminate.
Qed.

(** ** The extended leaves *)

(** C2, evaluated on the code.  [cpu_init] queries leaves 0x80000001 and
    0x80000007 on every processor, whatever leaf 0x80000000 answered.  On a
    processor whose leaf 0x80000000 reports 0x80000000 as the highest extended
    leaf, both are queried and a bit of leaf 0x80000001 is decoded and
    logged. *)
Theorem C2_extended_leaves_queried_unguarded (cpu : Processor) (s : Statics) :
  (In (EvCpuid 0x80000001 (cpuid_regs cpu 0x80000001)) (out (cpu_init cpu s)) /\
   In (EvCpuid 0x80000007 (cpuid_regs cpu 0x80000007)) (out (cpu_init cpu s))) /\
  (eax (cpuid_regs cpu_no_ext 0x80000000) = 0x80000000 /\
   hw_trace (out (cpu_init cpu_no_ext statics_init)) =
     [EvCpuid 1 zero_regs; EvCpuid 1 zero_regs;
      EvCpuid 0x80000000 (mkRegs 0x80000000 0 0 0);
      EvCpuid 0x80000001 (mkRegs 0 0 0 0x20000020);
      EvCpuid 0x80000007 zero_regs;
      EvCpuid 0xC0000000 zero_regs;
      EvCpuid 0 zero_regs;
      EvCpuid 0x80000000 (mkRegs 0x80000000 0 0 0);
      EvCpuid 0x80000006 zero_regs] /\
   In (EvLog LogMsr) (out (cpu_init cpu_no_ext statics_init))).
Proof.
  split; [split|].
  - assert (H : In (EvCpuid 0x80000001 (cpuid_regs cpu 0x80000001))
                   (hw_trace (out (cpu_init cpu s)))).
    { rewrite cpu_init_hw_trace. unfold cpu_init_hw.
      apply in_or_app; right. apply in_or_app; right.
      apply in_or_app; left. cbn. tauto. }
    apply filter_In in H. tauto.
  - assert (H : In (EvCpuid 0x80000007 (cpuid_regs cpu 0x80000007))
                   (hw_trace (out (cpu_init cpu s)))).
    { rewrite cpu_init_hw_trace. unfold cpu_init_hw.
      apply in_or_app; right. apply in_or_app; right.
      apply in_or_app; left. cbn. tauto. }
    apply filter_In in H. tauto.
  - split; [reflexivity|]. split; [vm_compute; reflexivity|].
    vm_compute. tauto.
Qed.

(** ** Bytes of a word *)

Lemma byte_of_div w i :
  0 <= i -> byte_of w i = (w / 2 ^ (8 * i)) mod 2 ^ 8.
Proof.
  intros. unfold byte_of. change 255 with (Z.ones 8).
  apply land_shiftr_field; lia.
Qed.

(** A 32-bit word is determined by its four bytes. *)
Lemma word_of_bytes w :
  0 <= w < 2 ^ 32 ->
  w = byte_of w 0 + 2 ^ 8 * byte_of w 1 + 2 ^ 16 * byte_of w 2
      + 2 ^ 24 * byte_of w 3.
Proof.
  intros Hw. rewrite !byte_of_div by lia.
  change (2 ^ (8 * 0)) with 1. change (2 ^ (8 * 1)) with 256.
  change (2 ^ (8 * 2)) with 65536. change (2 ^ (8 * 3)) with 16777216.
  change (2 ^ 8) with 256. change (2 ^ 16) with 65536.
  change (2 ^ 24) with 16777216. change (2 ^ 32) with 4294967296 in Hw.
  Z.div_mod_to_equations. lia.
Qed.

(** A buffer with a zero byte after its data holds a string no longer than
    the data. *)
Lemma c_string_terminated bytes :
  exists str, c_string (map Some bytes ++ [Some 0]) = Some str /\
              (length str <= length bytes)%nat.
Proof.
  induction bytes as [|b tl [str [Hs Hl]]].
  - exists []. split; [reflexivity | apply Nat.le_refl].
  - cbn [map app c_string]. destruct (b =? 0).
    + exists []. split; [reflexivity | apply Nat.le_0_l].
    + rewrite Hs. exists (b :: str). split; [reflexivity|].
      cbn [length]. now apply le_n_S.
Qed.

(** ** Vendor and brand strings *)

Lemma vendor_buf_eq cpu :
  vendor_buf cpu =
  string_of_registers (ebx (cpuid_regs cpu 0)) (edx (cpuid_regs cpu 0))
                      (ecx (cpuid_regs cpu 0)).
Proof. reflexivity. Qed.

(** C8 (as the code has it).  The vendor string is a 13-byte buffer whose
    bytes 0-3, 4-7 and 8-11 are the bytes of the second, the fourth and the
    third output register of leaf 0 (ebx, edx, ecx), and whose byte 12 is
    zero in the buffer that is logged: the logged string ends inside the
    buffer, after at most 12 bytes. *)
Theorem C8_vendor_string_order (cpu : Processor) (s : Statics) :
  let r := cpuid_regs cpu 0 in
  let buf := manufacturer_string (val (brandname cpu s)) in
  buf = string_of_registers (output_register 2 r) (output_register 4 r)
                            (output_register 3 r) /\
  length buf = 13%nat /\
  nth_error buf 12 = Some (Some 0) /\
  (exists pre post,
      out (brandname cpu s) = pre ++ EvLog (LogManufacturer buf) :: post) /\
  (exists str, c_string buf = Some str /\ (length str <= 12)%nat).
Proof.
  cbv zeta. rewrite brandname_run. cbn [val out manufacturer_string
    brandname_locals output_register].
  rewrite vendor_buf_eq.
  split; [reflexivity|]. split; [reflexivity|]. split; [reflexivity|]. split.
  - exists [EvCpuid 0 (cpuid_regs cpu 0)]. eexists.
    unfold brandname_out. rewrite vendor_buf_eq. reflexivity.
  - unfold string_of_registers. apply c_string_terminated.
Qed.

(** C8 as stated fails: for the processor whose leaf 0 answers eax = 1,
    ebx = [Auth], ecx = [cAMD], edx = [enti], the vendor string is
    [AuthenticAMD]; it is not the bytes of the first, third and second output
    register (eax, ecx, ebx) in that order. *)
Lemma C8_counterexample :
  c_string (manufacturer_string (val (brandname cpu_amd statics_init))) =
    Some [65; 117; 116; 104; 101; 110; 116; 105; 99; 65; 77; 68] /\
  manufacturer_string (val (brandname cpu_amd statics_init)) <>
    string_of_registers (output_register 1 (cpuid_regs cpu_amd 0))
                        (output_register 3 (cpuid_regs cpu_amd 0))
                        (output_register 2 (cpuid_regs cpu_amd 0)).
Proof.
  split.
  - vm_compute. reflexivity.
  - vm_compute. discriminate.
Qed.

Lemma vendor_signature_iff cpu :
  firstn 4 (vendor_buf cpu) = amd_signature <-> vendor_is_amd cpu = true.
Proof.
  unfold vendor_is_amd. rewrite Z.eqb_eq.
  change (firstn 4 (vendor_buf cpu))
    with (map Some (word_bytes (ebx (cpuid_regs cpu 0)))).
  assert (Hr : 0 <= ebx (cpuid_regs cpu 0) < 2 ^ 32)
    by exact (wrap32_range (ebx (hw_cpuid cpu 0))).
  revert Hr. generalize (ebx (cpuid_regs cpu 0)). intros w Hr.
  split.
  - intros H. injection H as H0 H1 H2 H3.
    rewrite (word_of_bytes _ Hr), H0, H1, H2, H3. reflexivity.
  - intros H. rewrite H. reflexivity.
Qed.

Lemma amd_calls_hw_trace l : amd_calls (hw_trace l) = amd_calls l.
Proof.
  unfold amd_calls, hw_trace. f_equal.
  induction l as [|e tl IH]; [reflexivity|].
  destruct e; cbn [filter is_hw is_amd_query]; rewrite ?IH; reflexivity.
Qed.

Lemma amd_calls_brandname cpu s :
  amd_calls (out (brandname cpu s)) = if vendor_is_amd cpu then 1%nat else 0%nat.
Proof.
  rewrite <- amd_calls_hw_trace, brandname_run. cbn [out].
  rewrite brandname_hw_trace. unfold brandname_hw.
  destruct (brand_supported cpu), (vendor_is_amd cpu); reflexivity.
Qed.

Lemma amd_calls_cpu_init cpu s :
  amd_calls (out (cpu_init cpu s)) = if vendor_is_amd cpu then 1%nat else 0%nat.
Proof.
  rewrite <- amd_calls_hw_trace, cpu_init_hw_trace.
  unfold cpu_init_hw, brandname_hw.
  destruct (Z.testbit (edx (cpuid_regs cpu 1)) 22),
    (brand_supported cpu), (vendor_is_amd cpu); reflexivity.
Qed.

(** C6.  For every answer of the processor to leaf 0: the first four bytes
    of the vendor string [brandname] builds are the four bytes of ebx of that
    answer, and they are the signature [Auth] exactly when that register is
    0x68747541.  When it is, the AMD query runs exactly once, both in
    [brandname] and in a whole pass, and the model it logs is bits 4-7 and the
    family bits 8-11 of the first output register (eax) of leaf 1; for every
    other value of the register it never runs. *)
Theorem C6_amd_query_once_iff_signature (cpu : Processor) (s : Statics) :
  let vendor := manufacturer_string (val (brandname cpu s)) in
  let v := output_register 2 (cpuid_regs cpu 0) in
  let a1 := output_register 1 (cpuid_regs cpu 1) in
  firstn 4 vendor = map Some (word_bytes v) /\
  (firstn 4 vendor = amd_signature <-> v = 0x68747541) /\
  (v = 0x68747541 ->
     amd_calls (out (brandname cpu s)) = 1%nat /\
     amd_calls (out (cpu_init cpu s)) = 1%nat /\
     exists a, amd (val (brandname cpu s)) = Some a /\
               cpu_model a = (a1 / 2 ^ 4) mod 2 ^ 4 /\
               cpu_family a = (a1 / 2 ^ 8) mod 2 ^ 4 /\
               In (EvLog (LogCpuModel (cpu_model a))) (out (brandname cpu s)) /\
               In (EvLog (LogCpuFamily (cpu_family a))) (out (brandname cpu s))) /\
  (v <> 0x68747541 ->
     amd_calls (out (brandname cpu s)) = 0%nat /\
     amd_calls (out (cpu_init cpu s)) = 0%nat /\
     amd (val (brandname cpu s)) = None).
Proof.
  cbv zeta. rewrite amd_calls_brandname, amd_calls_cpu_init.
  rewrite brandname_run. cbn [val out manufacturer_string amd
    brandname_locals output_register].
  assert (Hv : vendor_is_amd cpu = true <-> ebx (cpuid_regs cpu 0) = 0x68747541)
    by (unfold vendor_is_amd; apply Z.eqb_eq).
  split; [reflexivity|].
  split; [rewrite vendor_signature_iff; exact Hv|].
  destruct (vendor_is_amd cpu) eqn:E; split; intros H.
  - split; [reflexivity|]. split; [reflexivity|].
    exists (amd_locals cpu).
    split; [reflexivity|].
    split; [exact (land_shiftr_field _ 4 4 ltac:(lia) ltac:(lia))|].
    split; [exact (land_shiftr_field _ 8 4 ltac:(lia) ltac:(lia))|].
    unfold brandname_out. rewrite E.
    split; apply in_or_app; right; apply in_or_app; right; cbn; tauto.
  - exfalso. apply H. now apply Hv.
  - apply Hv in H. discriminate.
  - split; [reflexivity|]. split; reflexivity.
Qed.

Lemma brand_filter_hw_trace l :
  filter is_brand_query (hw_trace l) = filter is_brand_query l.
Proof.
  unfold hw_trace.
  induction l as [|e tl IH]; [reflexivity|].
  destruct e; cbn [filter is_hw is_brand_query]; rewrite ?IH; reflexivity.
Qed.

(** C7.  [brandname] issues the three brand leaves, in order, copies their
    twelve registers into the brand string and logs it exactly when the first
    output register (eax) of leaf 0x80000000 is at least 0x80000004.  For a
    smaller value no brand leaf is issued, by [brandname] or anywhere else in
    the pass, nothing is logged, and none of the 48 bytes of the buffer is
    ever written; only the terminator at index 48 is. *)
Theorem C7_brand_string_iff_max_extended (cpu : Processor) (s : Statics) :
  let maxext := output_register 1 (cpuid_regs cpu 0x80000000) in
  let b := val (brandname cpu s) in
  (0x80000004 <= maxext ->
     filter is_brand_query (out (brandname cpu s)) =
       [EvCpuid 0x80000002 (cpuid_regs cpu 0x80000002);
        EvCpuid 0x80000003 (cpuid_regs cpu 0x80000003);
        EvCpuid 0x80000004 (cpuid_regs cpu 0x80000004)] /\
     brand_string b = map Some (words_bytes (brand_words cpu)) ++ [Some 0] /\
     filter is_brand_log (out (brandname cpu s)) =
       [EvLog (LogBrand (brand_string b))]) /\
  (maxext < 0x80000004 ->
     filter is_brand_query (out (brandname cpu s)) = [] /\
     filter is_brand_query (out (cpu_init cpu s)) = [] /\
     filter is_brand_log (out (brandname cpu s)) = [] /\
     brand_string b = repeat None 48 ++ [Some 0]).
Proof.
  cbv zeta. cbn [output_register].
  rewrite <- (brand_filter_hw_trace (out (cpu_init cpu s))), cpu_init_hw_trace.
  rewrite brandname_run. cbn [val out brand_string brandname_locals].
  unfold cpu_init_hw, brandname_hw, brandname_out, brand_out, brand_buf.
  unfold brand_supported.
  destruct (Z.leb_spec 0x80000004 (eax (cpuid_regs cpu 0x80000000))) as [Hle|Hlt];
    split; intros H; try lia.
  - destruct (vendor_is_amd cpu); repeat split.
  - destruct (vendor_is_amd cpu),
      (Z.testbit (edx (cpuid_regs cpu 1)) 22); repeat split.
Qed.

(** ** The tag of the AMD query *)

(** C10, evaluated on the code.  No statement of [do_amd] writes index 12 of
    its 13-byte tag buffer: the cell is still unwritten when the buffer is
    logged.  On the AMD processor whose leaf 0x8FFFFFFF answers twelve
    non-zero bytes, reading the logged buffer as a string reaches that cell
    without having met a terminator; the vendor string of [brandname], which
    writes index 12, ends inside its buffer. *)
Theorem C10_amd_tag_not_terminated (cpu : Processor) (s : Statics) :
  let tag := eggs_string (val (do_amd cpu s)) in
  (length tag = 13%nat /\
   nth_error tag 12 = Some None /\
   In (EvLog (LogAmd tag)) (out (do_amd cpu s))) /\
  (In (EvLog (LogAmd (eggs_string (val (do_amd cpu_amd statics_init)))))
      (out (cpu_init cpu_amd statics_init)) /\
   c_string (eggs_string (val (do_amd cpu_amd statics_init))) = None /\
   c_string (manufacturer_string (val (brandname cpu_amd statics_init))) =
     Some [65; 117; 116; 104; 101; 110; 116; 105; 99; 65; 77; 68]).
Proof.
  cbv zeta. rewrite do_amd_run. cbn [val out eggs_string amd_locals].
  split.
  - split; [reflexivity|]. split; [reflexivity|].
    unfold amd_out. cbn. tauto.
  - split; [|split; vm_compute; reflexivity].
    rewrite cpu_init_out_eq. vm_compute. tauto.
Qed.

(** ** Further properties of the pass *)

(** A filter that keeps only hardware accesses sees the same thing in an
    output and in its hardware trace. *)
Lemma filter_hw_trace (f : Event -> bool) l :
  (forall e, f e = true -> is_hw e = true) ->
  filter f (hw_trace l) = filter f l.
Proof.
  intros Hf. unfold hw_trace.
  induction l as [|e tl IH]; [reflexivity|].
  cbn [filter]. destruct (is_hw e) eqn:He.
  - cbn [filter]. now rewrite IH.
  - rewrite IH. destruct (f e) eqn:Hfe; [|reflexivity].
    apply Hf in Hfe. congruence.
Qed.

Lemma is_cpuid_of_hw leaf e : is_cpuid_of leaf e = true -> is_hw e = true.
Proof. destruct e; cbn; congruence. Qed.

Lemma is_cpuid_hw e : is_cpuid e = true -> is_hw e = true.
Proof. destruct e; cbn; congruence. Qed.

Lemma is_msr_access_hw e : is_msr_access e = true -> is_hw e = true.
Proof. destruct e; cbn; congruence. Qed.

(** X1.  After a pass that starts from the initial flags, each flag is the
    bit of leaf 1 it is tested under: edx bits 22, 23 and 25, ecx bits 28 and
    30. *)
Theorem X1_flags_are_the_bits (cpu : Processor) :
  st (cpu_init cpu statics_init) =
  mkStatics (Z.testbit (edx (cpuid_regs cpu 1)) 22)
            (Z.testbit (edx (cpuid_regs cpu 1)) 23)
            (Z.testbit (edx (cpuid_regs cpu 1)) 25)
            (Z.testbit (ecx (cpuid_regs cpu 1)) 28)
            (Z.testbit (ecx (cpuid_regs cpu 1)) 30).
Proof. rewrite cpu_init_st. reflexivity. Qed.

(** X2.  A pass never clears a flag: whatever the flags were, those that were
    set are still set afterwards. *)
Theorem X2_flags_never_cleared (cpu : Processor) (s : Statics) :
  flags_le s (st (cpu_init cpu s)).
Proof.
  rewrite cpu_init_st. unfold flags_le, probed. cbv zeta.
  cbn [acpi_msrs_support mmx_support sse2_support avx_support rdrnd_support].
  repeat split; intros H; rewrite H; reflexivity.
Qed.

(** X3.  The flags after a pass depend on the processor only through its
    answer to leaf 1: no other leaf and no model-specific register has a
    part in them. *)
Theorem X3_flags_depend_on_leaf1_only (c1 c2 : Processor) (s : Statics) :
  cpuid_regs c1 1 = cpuid_regs c2 1 ->
  st (cpu_init c1 s) = st (cpu_init c2 s).
Proof.
  intros H. rewrite !cpu_init_st. unfold probed. cbv zeta.
  now rewrite H.
Qed.

Lemma X3_flags_depend_on_leaf1_only_witness :
  st (cpu_init cpu_none statics_init) = st (cpu_init cpu_no_ext statics_init).
Proof.
  apply (X3_flags_depend_on_leaf1_only cpu_none cpu_no_ext statics_init).
  reflexivity.
Defined.

(** X4.  What a pass queries, reads and logs does not depend on the values
    the flags had before it: the flags are written, never read. *)
Theorem X4_output_independent_of_flags (cpu : Processor) (s s' : Statics) :
  out (cpu_init cpu s) = out (cpu_init cpu s').
Proof. now rewrite !cpu_init_out_eq. Qed.

(** X5.  A pass reads register 0x19C exactly once when bit 22 of edx of
    leaf 1 is set, and accesses no model-specific register otherwise. *)
Theorem X5_one_msr_read_iff_bit22 (cpu : Processor) (s : Statics) :
  filter is_msr_access (out (cpu_init cpu s)) =
  if Z.testbit (edx (cpuid_regs cpu 1)) 22
  then [EvRdmsr 0x19C (msr_lo cpu 0x19C) (msr_hi cpu 0x19C)]
  else [].
Proof.
  rewrite <- (filter_hw_trace _ _ is_msr_access_hw), cpu_init_hw_trace.
  unfold cpu_init_hw, brandname_hw.
  destruct (Z.testbit (edx (cpuid_regs cpu 1)) 22),
    (brand_supported cpu), (vendor_is_amd cpu); reflexivity.
Qed.

(** X6.  How often a pass queries each leaf: leaf 0x80000000 twice (once in
    [cpu_init], once in [brandname]); leaf 1 twice, and a third time for the
    vendor [Auth]; leaves 0, 0x80000001, 0x80000006, 0x80000007 and
    0xC0000000 once, whatever leaf 0x80000000 answered; each brand leaf once
    when eax of leaf 0x80000000 is at least 0x80000004 and not at all
    otherwise; and these are all the queries there are. *)
Theorem X6_cpuid_query_counts (cpu : Processor) (s : Statics) :
  let o := out (cpu_init cpu s) in
  let amd := ebx (cpuid_regs cpu 0) =? 0x68747541 in
  let brand := 0x80000004 <=? eax (cpuid_regs cpu 0x80000000) in
  cpuid_count 0x80000000 o = 2%nat /\
  cpuid_count 1 o = (if amd then 3 else 2)%nat /\
  cpuid_count 0 o = 1%nat /\
  cpuid_count 0x80000001 o = 1%nat /\
  cpuid_count 0x80000006 o = 1%nat /\
  cpuid_count 0x80000007 o = 1%nat /\
  cpuid_count 0xC0000000 o = 1%nat /\
  cpuid_count 0x80000002 o = (if brand then 1 else 0)%nat /\
  cpuid_count 0x80000003 o = (if brand then 1 else 0)%nat /\
  cpuid_count 0x80000004 o = (if brand then 1 else 0)%nat /\
  cpuid_count 0x8FFFFFFF o = (if amd then 1 else 0)%nat /\
  length (filter is_cpuid o) =
    (9 + (if brand then 3 else 0) + (if amd then 2 else 0))%nat.
Proof.
  cbv zeta. unfold cpuid_count.
  fold (vendor_is_amd cpu) (brand_supported cpu).
  repeat apply conj;
    (rewrite <- (filter_hw_trace _ _ (is_cpuid_of_hw _))
     || rewrite <- (filter_hw_trace _ _ is_cpuid_hw));
    rewrite cpu_init_hw_trace;
    unfold cpu_init_hw, brandname_hw;
    destruct (Z.testbit (edx (cpuid_regs cpu 1)) 22),
      (brand_supported cpu), (vendor_is_amd cpu); reflexivity.
Qed.

(** ** The log of the pass *)

Lemma filter_log_if f b m :
  filter f (log_if b m) = if f (EvLog m) then log_if b m else [].
Proof. destruct b; cbn [log_if filter]; destruct (f (EvLog m)); reflexivity. Qed.

Lemma length_log_if b m : length (log_if b m) = Nat.b2n b.
Proof. destruct b; reflexivity. Qed.

(** The lines of [brandname] and [l2_cache] are none of the lines that a test
    of leaf 1 logs in [cpu_init]. *)
Lemma brandname_no_line p cpu :
  (forall b, p (LogManufacturer b) = false) ->
  (forall b, p (LogBrand b) = false) ->
  (forall b, p (LogAmd b) = false) ->
  (forall z, p (LogCpuModel z) = false) ->
  (forall z, p (LogCpuFamily z) = false) ->
  filter (is_log_of p) (brandname_out cpu) = [].
Proof.
  intros H1 H2 H3 H4 H5.
  unfold brandname_out, brand_out, amd_out.
  destruct (brand_supported cpu), (vendor_is_amd cpu);
    cbn [filter app is_log_of]; rewrite ?H1, ?H2, ?H3, ?H4, ?H5; reflexivity.
Qed.

Ltac count_lines :=
  unfold log_count;
  rewrite cpu_init_out_eq; unfold cpu_init_out; cbv zeta;
  rewrite !filter_app, !filter_log_if;
  rewrite brandname_no_line by reflexivity;
  cbn [is_log_of same_line is_temperature_line];
  unfold thermal_block_out;
  match goal with
  | |- context [if ?b then [EvFbPrintf _] else []] => destruct b
  end;
  match goal with
  | |- context [if ?b then [EvLog LogAcpiMsrs; _; _] else []] => destruct b
  end;
  cbn [filter app is_log_of same_line is_temperature_line length out l2_cache
       bind emit ret cpuid LOG val st];
  rewrite ?app_nil_r, ?length_log_if; reflexivity.

(** X7.  The log agrees with the tests of leaf 1: the line for the FPU and
    the line of each of the five flags is logged exactly once when its bit is
    set and not at all when it is clear. *)
Theorem X7_flag_lines_follow_bits (cpu : Processor) (s : Statics) :
  let o := out (cpu_init cpu s) in
  let r := cpuid_regs cpu 1 in
  log_count (same_line LogFpu) o = Nat.b2n (Z.testbit (edx r) 0) /\
  log_count (same_line LogAcpiMsrs) o = Nat.b2n (Z.testbit (edx r) 22) /\
  log_count (same_line LogMmx) o = Nat.b2n (Z.testbit (edx r) 23) /\
  log_count (same_line LogSse2) o = Nat.b2n (Z.testbit (edx r) 25) /\
  log_count (same_line LogAvx) o = Nat.b2n (Z.testbit (ecx r) 28) /\
  log_count (same_line LogRdrnd) o = Nat.b2n (Z.testbit (ecx r) 30).
Proof.
  cbv zeta. repeat apply conj; count_lines.
Qed.

(** The temperature line is logged, with the decoded value of register 0x19C,
    exactly when bit 22 of edx of leaf 1 is set. *)
Lemma temperature_line_filter cpu s :
  filter (is_log_of is_temperature_line) (out (cpu_init cpu s)) =
  if Z.testbit (edx (cpuid_regs cpu 1)) 22
  then [EvLog (LogTemperature
                 (temperature_of (msr_lo cpu 0x19C) (msr_hi cpu 0x19C)))]
  else [].
Proof.
  rewrite cpu_init_out_eq; unfold cpu_init_out; cbv zeta.
  rewrite !filter_app, !filter_log_if.
  rewrite brandname_no_line by reflexivity.
  cbn [is_log_of is_temperature_line].
  unfold thermal_block_out.
  match goal with
  | |- context [if ?b then [EvFbPrintf _] else []] => destruct b
  end;
  destruct (Z.testbit (edx (cpuid_regs cpu 1)) 22); reflexivity.
Qed.

(** ** More on the temperature *)

Lemma temperature_of_halves lo hi :
  temperature_of (wrap32 lo) (wrap32 hi) = wrap32 hi * 256 + wrap32 lo / 2 ^ 24.
Proof.
  unfold temperature_of. cbv zeta. rewrite temperature_fits.
  rewrite <- Z.lxor_lor, <- Z.add_nocarry_lxor by apply halves_disjoint.
  rewrite Z.shiftl_mul_pow2, Z.shiftr_div_pow2 by lia.
  rewrite Z.div_div by lia.
  change (2 ^ 16 * 256) with (2 ^ 24).
  replace (wrap32 hi * 2 ^ 32) with (wrap32 hi * 256 * 2 ^ 24) by lia.
  rewrite Z.div_add_l by lia. reflexivity.
Qed.

(** X8.  The value of [get_cpu_temperature] is [hi * 256 + lo / 2^24] for the
    two halves read from register 0x19C: the low 24 bits of the register take
    no part, the value is zero exactly when the register is below 2^24, and
    it is below 2^40. *)
Theorem X8_temperature_value (cpu : Processor) (s : Statics) :
  let lo := msr_lo cpu 0x19C in
  let hi := msr_hi cpu 0x19C in
  let t := val (get_cpu_temperature cpu s) in
  t = hi * 256 + lo / 2 ^ 24 /\
  (t = 0 <-> hi = 0 /\ lo < 2 ^ 24) /\
  0 <= t < 2 ^ 40.
Proof.
  cbv zeta. rewrite get_cpu_temperature_run. cbn [val].
  unfold msr_lo, msr_hi. rewrite temperature_of_halves.
  pose proof (wrap32_range (fst (hw_rdmsr cpu 0x19C))) as Hlo.
  pose proof (wrap32_range (snd (hw_rdmsr cpu 0x19C))) as Hhi.
  revert Hlo Hhi.
  generalize (wrap32 (fst (hw_rdmsr cpu 0x19C))).
  generalize (wrap32 (snd (hw_rdmsr cpu 0x19C))).
  intros hi lo Hlo Hhi.
  change (2 ^ 32) with 4294967296 in *.
  change (2 ^ 24) with 16777216. change (2 ^ 40) with 1099511627776.
  split; [reflexivity|].
  split; [split|]; Z.div_mod_to_equations; lia.
Qed.

(** X9.  When bit 22 of edx of leaf 1 is set, the temperature line of a pass
    carries the decoded value of register 0x19C, and it is logged once; when
    the bit is clear there is no temperature line. *)
Theorem X9_temperature_line (cpu : Processor) (s : Statics) :
  filter (is_log_of is_temperature_line) (out (cpu_init cpu s)) =
  if Z.testbit (edx (cpuid_regs cpu 1)) 22
  then [EvLog (LogTemperature (msr_hi cpu 0x19C * 256
                               + msr_lo cpu 0x19C / 2 ^ 24))]
  else [].
Proof.
  rewrite temperature_line_filter.
  unfold msr_lo, msr_hi. now rewrite temperature_of_halves.
Qed.

(** ** More on the cache geometry *)

(** X10.  The three fields [l2_cache] logs are within their widths: the line
    size below 256, the associativity code below 8, the size below 65536. *)
Theorem X10_l2_fields_bounded (cpu : Processor) (s : Statics) :
  exists lsize assoc cache,
    out (l2_cache cpu s) =
      [EvCpuid 0x80000006 (cpuid_regs cpu 0x80000006);
       EvLog (LogL2 lsize assoc cache)] /\
    0 <= lsize < 256 /\ 0 <= assoc < 8 /\ 0 <= cache < 65536.
Proof.
  rewrite l2_cache_run. cbv zeta. cbn [out].
  do 3 eexists. split; [reflexivity|].
  unfold l2_lsize, l2_assoc, l2_cache_size.
  change 0xFF with (Z.ones 8). change 0x07 with (Z.ones 3).
  change 0xFFFF with (Z.ones 16).
  rewrite !Z.land_ones by lia.
  repeat split; try (apply Z.mod_pos_bound; lia).
Qed.

(** X11.  The decoder inverts the layout of the register: for a line size, an
    associativity code and a size within their widths, packed at bits 0, 12
    and 16 with anything in bits 8-11 and bit 15, the three fields decoded are
    the three that were packed; bits 8-11 and 15 take no part. *)
Theorem X11_l2_decode_of_packed (l a c x y : Z) :
  0 <= l < 2 ^ 8 -> 0 <= a < 2 ^ 3 -> 0 <= c < 2 ^ 16 ->
  0 <= x < 2 ^ 4 -> 0 <= y < 2 ->
  let e := l + x * 2 ^ 8 + a * 2 ^ 12 + y * 2 ^ 15 + c * 2 ^ 16 in
  l2_lsize e = l /\ l2_assoc e = a /\ l2_cache_size e = c.
Proof.
  intros Hl Ha Hc Hx Hy. cbv zeta.
  unfold l2_lsize, l2_assoc, l2_cache_size.
  change 0xFF with (Z.ones 8). change 0x07 with (Z.ones 3).
  change 0xFFFF with (Z.ones 16).
  rewrite Z.land_ones, !land_shiftr_field by lia.
  change (2 ^ 8) with 256 in *. change (2 ^ 3) with 8 in *.
  change (2 ^ 16) with 65536 in *. change (2 ^ 4) with 16 in *.
  change (2 ^ 12) with 4096. change (2 ^ 15) with 32768.
  repeat split; Z.div_mod_to_equations; lia.
Qed.

Lemma X11_l2_decode_of_packed_witness :
  l2_lsize 0x02002040 = 64 /\ l2_assoc 0x02002040 = 2 /\
  l2_cache_size 0x02002040 = 512.
Proof.
  apply (X11_l2_decode_of_packed 64 2 512 0 0); lia.
Defined.

(** X12.  The hardware accesses of a pass, in program order: leaf 1; the read
    of register 0x19C when bit 22 of its edx is set; leaf 1 again; leaves
    0x80000000, 0x80000001, 0x80000007 and 0xC0000000; then those of
    [brandname] (leaf 0, leaf 0x80000000, the three brand leaves when
    supported, leaves 0x8FFFFFFF and 1 for the vendor [Auth]); and last leaf
    0x80000006 of [l2_cache]. *)
Theorem X12_hardware_access_sequence (cpu : Processor) (s : Statics) :
  let q := fun leaf => EvCpuid leaf (cpuid_regs cpu leaf) in
  hw_trace (out (cpu_init cpu s)) =
  [q 1] ++
  (if Z.testbit (edx (cpuid_regs cpu 1)) 22
   then [EvRdmsr 0x19C (msr_lo cpu 0x19C) (msr_hi cpu 0x19C)] else []) ++
  [q 1; q 0x80000000; q 0x80000001; q 0x80000007; q 0xC0000000] ++
  [q 0; q 0x80000000] ++
  (if 0x80000004 <=? eax (cpuid_regs cpu 0x80000000)
   then [q 0x80000002; q 0x80000003; q 0x80000004] else []) ++
  (if ebx (cpuid_regs cpu 0) =? 0x68747541
   then [q 0x8FFFFFFF; q 1] else []) ++
  [q 0x80000006].
Proof.
  cbv zeta. rewrite cpu_init_hw_trace.
  unfold cpu_init_hw, brandname_hw, brand_supported, vendor_is_amd.
  destruct (Z.testbit (edx (cpuid_regs cpu 1)) 22),
    (0x80000004 <=? eax (cpuid_regs cpu 0x80000000)),
    (ebx (cpuid_regs cpu 0) =? 0x68747541); reflexivity.
Qed.

(** ** More on [do_amd] and [brandname] *)





(** X16.  Only [cpu_init] writes the flags: [brandname], [do_amd], [l2_cache]
    and [get_cpu_temperature] leave them as they were; and [brandname],
    [do_amd] and [l2_cache] access no model-specific register. *)
Theorem X16_helpers_keep_flags (cpu : Processor) (s : Statics) :
  (st (brandname cpu s) = s /\ st (do_amd cpu s) = s /\
   st (l2_cache cpu s) = s /\ st (get_cpu_temperature cpu s) = s) /\
  (filter is_msr_access (out (brandname cpu s)) = [] /\
   filter is_msr_access (out (do_amd cpu s)) = [] /\
   filter is_msr_access (out (l2_cache cpu s)) = []).
Proof.
  rewrite brandname_run, do_amd_run. cbn [st out].
  split; [repeat split|].
  split; [|split; reflexivity].
  unfold brandname_out, brand_out, amd_out.
  destruct (brand_supported cpu), (vendor_is_amd cpu); reflexivity.
Qed.

Lemma word_bytes_inj v w :
  0 <= v < 2 ^ 32 -> 0 <= w < 2 ^ 32 ->
  byte_of v 0 = byte_of w 0 -> byte_of v 1 = byte_of w 1 ->
  byte_of v 2 = byte_of w 2 -> byte_of v 3 = byte_of w 3 -> v = w.
Proof.
  intros Hv Hw H0 H1 H2 H3.
  rewrite (word_of_bytes v Hv), (word_of_bytes w Hw), H0, H1, H2, H3.
  reflexivity.
Qed.

(** X17.  The vendor string determines the three registers it is made of:
    two processors with the same vendor string have the same ebx, edx and ecx
    at leaf 0 (eax takes no part in the string). *)
Theorem X17_vendor_string_determines_registers
    (c1 c2 : Processor) (s1 s2 : Statics) :
  manufacturer_string (val (brandname c1 s1)) =
  manufacturer_string (val (brandname c2 s2)) ->
  ebx (cpuid_regs c1 0) = ebx (cpuid_regs c2 0) /\
  edx (cpuid_regs c1 0) = edx (cpuid_regs c2 0) /\
  ecx (cpuid_regs c1 0) = ecx (cpuid_regs c2 0).
Proof.
  rewrite !brandname_run. cbn [val manufacturer_string brandname_locals].
  rewrite !vendor_buf_eq. unfold string_of_registers, word_bytes.
  cbn [map app]. intros H.
  injection H as B0 B1 B2 B3 D0 D1 D2 D3 C0 C1 C2 C3.
  repeat split; apply word_bytes_inj; trivial;
    match goal with
    | |- 0 <= ?f (cpuid_regs ?c 0) < _ =>
        exact (wrap32_range (f (hw_cpuid c 0)))
    end.
Qed.

Lemma X17_vendor_string_determines_registers_witness :
  ebx (cpuid_regs cpu_amd 0) = ebx (cpuid_regs cpu_amd_bare 0) /\
  edx (cpuid_regs cpu_amd 0) = edx (cpuid_regs cpu_amd_bare 0) /\
  ecx (cpuid_regs cpu_amd 0) = ecx (cpuid_regs cpu_amd_bare 0).
Proof.
  apply (X17_vendor_string_determines_registers
           cpu_amd cpu_amd_bare statics_init statics_init).
  vm_compute. reflexivity.
Defined.

(** ** The control-register values of [sse_init] *)

Lemma wrap64_bits x n :
  0 <= n -> Z.testbit (wrap64 x) n = (n <? 64) && Z.testbit x n.
Proof.
  intros Hn. unfold wrap64. destruct (Z.ltb_spec n 64).
  - now rewrite Z.mod_pow2_bits_low.
  - now rewrite Z.mod_pow2_bits_high by lia.
Qed.

Lemma sse_cr0_bits x n :
  0 <= n ->
  Z.testbit (sse_cr0 (wrap64 x)) n =
  if n =? 1 then true else if n =? 2 then false else Z.testbit (wrap64 x) n.
Proof.
  intros Hn. unfold sse_cr0. cbv zeta.
  change (Z.shiftl 1 2) with (2 ^ 2). change (Z.shiftl 1 1) with (2 ^ 1).
  rewrite !wrap64_bits, Z.lor_spec, !wrap64_bits, Z.land_spec,
    !wrap64_bits, Z.lnot_spec, !Z.pow2_bits_eqb by lia.
  rewrite (Z.eqb_sym 1 n), (Z.eqb_sym 2 n).
  destruct (Z.testbit x n), (Z.ltb_spec n 64), (Z.eqb_spec n 1),
    (Z.eqb_spec n 2); try reflexivity; lia.
Qed.

Lemma sse_cr4_bits x n :
  0 <= n ->
  Z.testbit (sse_cr4 (wrap64 x)) n =
  if (n =? 9) || (n =? 10) then true else Z.testbit (wrap64 x) n.
Proof.
  intros Hn. unfold sse_cr4.
  change (Z.shiftl 3 9) with (2 ^ 9 + 2 ^ 10).
  assert (H3 : Z.testbit (2 ^ 9 + 2 ^ 10) n = (n =? 9) || (n =? 10)).
  { rewrite Z.add_nocarry_lxor by reflexivity.
    rewrite Z.lxor_spec, !Z.pow2_bits_eqb by lia.
    rewrite (Z.eqb_sym 9 n), (Z.eqb_sym 10 n).
    destruct (Z.eqb_spec n 9), (Z.eqb_spec n 10); try reflexivity. lia. }
  rewrite !wrap64_bits, Z.lor_spec, !wrap64_bits, H3 by lia.
  destruct (Z.testbit x n), (Z.ltb_spec n 64), (Z.eqb_spec n 9),
    (Z.eqb_spec n 10); try reflexivity; lia.
Qed.

(** X18.  The value [sse_init] computes for CR0 from a 64-bit value has bit 1
    set and bit 2 clear and every other bit as it was, the upper 32 bits
    included (the [int] mask [~(1 << 2)] is sign-extended to 64 bits); the
    value it computes for CR4 has bits 9 and 10 set and every other bit as it
    was.  Computing either a second time changes nothing. *)
Theorem X18_sse_init_bits (cr0 cr4 : Z) :
  (forall n, 0 <= n ->
     Z.testbit (sse_cr0 (wrap64 cr0)) n =
     if n =? 1 then true else if n =? 2 then false
     else Z.testbit (wrap64 cr0) n) /\
  (forall n, 0 <= n ->
     Z.testbit (sse_cr4 (wrap64 cr4)) n =
     if (n =? 9) || (n =? 10) then true else Z.testbit (wrap64 cr4) n) /\
  sse_cr0 (sse_cr0 (wrap64 cr0)) = sse_cr0 (wrap64 cr0) /\
  sse_cr4 (sse_cr4 (wrap64 cr4)) = sse_cr4 (wrap64 cr4).
Proof.
  split; [intros; now apply sse_cr0_bits|].
  split; [intros; now apply sse_cr4_bits|].
  split.
  - apply Z.bits_inj'. intros n Hn.
    assert (E : sse_cr0 (wrap64 cr0) = wrap64 (sse_cr0 (wrap64 cr0))).
    { unfold sse_cr0 at 2. cbv zeta. unfold wrap64 at 1.
      unfold sse_cr0, wrap64. now rewrite Z.mod_mod by lia. }
    rewrite E at 1. rewrite sse_cr0_bits by lia. rewrite <- E.
    rewrite sse_cr0_bits by lia.
    destruct (n =? 1), (n =? 2); reflexivity.
  - apply Z.bits_inj'. intros n Hn.
    assert (E : sse_cr4 (wrap64 cr4) = wrap64 (sse_cr4 (wrap64 cr4))).
    { unfold sse_cr4, wrap64. now rewrite Z.mod_mod by lia. }
    rewrite E at 1. rewrite sse_cr4_bits by lia. rewrite <- E.
    rewrite sse_cr4_bits by lia.
    destruct ((n =? 9) || (n =? 10)); reflexivity.
Qed.

(** ** The lines of the extended leaves *)

Ltac count_kind :=
  unfold log_count;
  rewrite cpu_init_out_eq; unfold cpu_init_out; cbv zeta;
  rewrite !filter_app, !filter_log_if;
  rewrite brandname_no_line by reflexivity;
  cbn [is_log_of is_line line_tag Nat.eqb];
  unfold thermal_block_out;
  match goal with
  | |- context [if ?b then [EvFbPrintf _] else []] => destruct b
  end;
  match goal with
  | |- context [if ?b then [EvLog LogAcpiMsrs; _; _] else []] => destruct b
  end;
  cbn [filter app is_log_of is_line line_tag Nat.eqb length out l2_cache
       bind emit ret cpuid LOG val st];
  rewrite ?app_nil_r, ?length_log_if; reflexivity.

(** X19.  The lines decoded from leaf 0x80000001: each is logged once when its
    bit is set and not at all otherwise, with edx bits 5, 6, 7, 9, 11 and 29
    for MSR, PAE, MCE, APIC, SYSCALL/SYSRET and AMD64 and ecx bits 6 and 7 for
    SSE4a and misaligned SSE; the line for edx bit 10 is the only output that
    goes through [fb_printf]. *)
Theorem X19_extended_feature_lines (cpu : Processor) (s : Statics) :
  let o := out (cpu_init cpu s) in
  let x := cpuid_regs cpu 0x80000001 in
  log_count (is_line LogMsr) o = Nat.b2n (Z.testbit (edx x) 5) /\
  log_count (is_line LogPae) o = Nat.b2n (Z.testbit (edx x) 6) /\
  log_count (is_line LogMce) o = Nat.b2n (Z.testbit (edx x) 7) /\
  log_count (is_line LogApic) o = Nat.b2n (Z.testbit (edx x) 9) /\
  log_count (is_line LogSyscall) o = Nat.b2n (Z.testbit (edx x) 11) /\
  log_count (is_line LogAmd64) o = Nat.b2n (Z.testbit (edx x) 29) /\
  log_count (is_line LogSse4a) o = Nat.b2n (Z.testbit (ecx x) 6) /\
  log_count (is_line LogMisalignedSse) o = Nat.b2n (Z.testbit (ecx x) 7) /\
  filter is_fb_printf o =
    if Z.testbit (edx x) 10 then [EvFbPrintf LogSyscallAmd5] else [].
Proof.
  cbv zeta. repeat apply conj; try count_kind.
  rewrite cpu_init_out_eq; unfold cpu_init_out; cbv zeta.
  rewrite !filter_app, !filter_log_if.
  cbn [is_fb_printf].
  unfold thermal_block_out, brandname_out, brand_out, amd_out.
  destruct (Z.testbit (edx (cpuid_regs cpu 0x80000001)) 10),
    (Z.testbit (edx (cpuid_regs cpu 1)) 22),
    (brand_supported cpu), (vendor_is_amd cpu); reflexivity.
Qed.

(** X20.  The lines decoded from leaf 0x80000007, each logged once when its
    bit is set and not at all otherwise: ebx bits 0 and 1, edx bits 0, 3, 4,
    5 and 6.  The two registers are decoded independently. *)
Theorem X20_power_management_lines (cpu : Processor) (s : Statics) :
  let o := out (cpu_init cpu s) in
  let x := cpuid_regs cpu 0x80000007 in
  log_count (is_line LogMcaOverflow) o = Nat.b2n (Z.testbit (ebx x) 0) /\
  log_count (is_line LogSwErrorRecovery) o = Nat.b2n (Z.testbit (ebx x) 1) /\
  log_count (is_line LogTempSensor) o = Nat.b2n (Z.testbit (edx x) 0) /\
  log_count (is_line LogThermalMonitor) o = Nat.b2n (Z.testbit (edx x) 3) /\
  log_count (is_line LogHtc) o = Nat.b2n (Z.testbit (edx x) 4) /\
  log_count (is_line LogStc) o = Nat.b2n (Z.testbit (edx x) 5) /\
  log_count (is_line Log100MHz) o = Nat.b2n (Z.testbit (edx x) 6).
Proof.
  cbv zeta. repeat apply conj; count_kind.
Qed.

